(** * ChatbotService: session store and mode orchestration

    A shallow embedding of [app/chatbot_service.py].  The service keeps two
    dictionaries ([sessions] and [evaluations]) keyed by session identifier,
    talks to an external text-generation model, and aggregates the rubric
    scores the model returned.

    Python objects are embedded as follows:
    - [str] is [string] (the UTF-8 encoding of the text);
    - [int] is [Z]; [float] is IEEE-754 binary64, as [spec_float] with the
      operations of [SpecFloat] at precision 53 and maximal exponent 1024;
    - what [json.loads] returns is a [value];
    - the two dictionaries of the service are [gmap string _];
    - a method is a computation in the monad [M]: it threads the service
      state and either returns or raises. *)

From Stdlib Require Import ZArith String Ascii List Bool.
From Stdlib Require Import Floats.SpecFloat.
From stdpp Require Import gmap strings list.

Set Warnings "-register-all".

Local Open Scope string_scope.
Local Open Scope Z_scope.

(** ** Python objects *)

(** The objects [json.loads] can build.  A [dict] is kept as the list of its
    items in insertion order; the keys of a dict are pairwise distinct. *)
Inductive value : Type :=
  | VNone
  | VBool (b : bool)
  | VInt (z : Z)
  | VFloat (f : spec_float)
  | VStr (s : string)
  | VList (l : list value)
  | VDict (items : list (string * value)).

(** The exceptions the interpreter raises by itself in this program. *)
Inductive builtin_error : Type :=
  | TypeError
  | OverflowError
  | ZeroDivisionError
  | KeyError (key : string).

(** [ExternalError msg] is whatever the model client raises, with [str(e) = msg];
    [PyException msg] is [Exception(msg)]. *)
Inductive exn : Type :=
  | Builtin (b : builtin_error)
  | ExternalError (msg : string)
  | PyException (msg : string).

Inductive result (A : Type) : Type :=
  | Ok (a : A)
  | Raise (e : exn).
Arguments Ok {A} a.
Arguments Raise {A} e.

#[global] Instance result_ret : MRet result := fun A a => Ok a.
#[global] Instance result_bind : MBind result := fun A B f r =>
  match r with
  | Ok a => f a
  | Raise e => Raise e
  end.

(** ** Strings *)

Definition nl : string := String "010"%char EmptyString.
Definition dquote : string := String "034"%char EmptyString.

(** [needle in hay] for two [str]: substring test. *)
Fixpoint str_contains (needle hay : string) : bool :=
  String.prefix needle hay ||
  match hay with
  | EmptyString => false
  | String _ hay' => str_contains needle hay'
  end.

(** ** Numbers *)

Definition prec : Z := 53.
Definition emax : Z := 1024.

Definition float_add : spec_float -> spec_float -> spec_float := SFadd prec emax.
Definition float_mul : spec_float -> spec_float -> spec_float := SFmul prec emax.
Definition float_div : spec_float -> spec_float -> spec_float := SFdiv prec emax.

(** [float(z)]: correctly rounded; too large an [int] raises. *)
Definition int_to_float (z : Z) : result spec_float :=
  match binary_normalize prec emax z 0 false with
  | S754_infinity _ => Raise (Builtin OverflowError)
  | f => Ok f
  end.

(** What the accumulator [total_score] can hold: it starts as the [int] 0 and
    only [+=] is applied to it. *)
Inductive number : Type :=
  | NInt (z : Z)
  | NFloat (f : spec_float).

(** The objects that take part in arithmetic ([bool] is a subclass of [int]). *)
Definition as_number (v : value) : option number :=
  match v with
  | VBool b => Some (NInt (Z.b2z b))
  | VInt z => Some (NInt z)
  | VFloat f => Some (NFloat f)
  | _ => None
  end.

(** [acc += v] *)
Definition py_iadd (acc : number) (v : value) : result number :=
  match as_number v with
  | None => Raise (Builtin TypeError)
  | Some n =>
    match acc, n with
    | NInt a, NInt b => Ok (NInt (a + b))
    | NInt a, NFloat g => f ← int_to_float a; Ok (NFloat (float_add f g))
    | NFloat f, NInt b => g ← int_to_float b; Ok (NFloat (float_add f g))
    | NFloat f, NFloat g => Ok (NFloat (float_add f g))
    end
  end.

(** [a / b] with [b] an [int]: true division, always a [float]. *)
Definition py_truediv (a : number) (b : Z) : result spec_float :=
  if b =? 0 then Raise (Builtin ZeroDivisionError) else
  match a with
  | NInt 0 => Ok (S754_zero (b <? 0))
  | NInt a =>
    match float_div (S754_finite (a <? 0) (Z.to_pos (Z.abs a)) 0)
                    (S754_finite (b <? 0) (Z.to_pos (Z.abs b)) 0) with
    | S754_infinity _ => Raise (Builtin OverflowError)
    | q => Ok q
    end
  | NFloat f => g ← int_to_float b; Ok (float_div f g)
  end.

(** [f * z] with [z] an [int]. *)
Definition py_mul_int (f : spec_float) (z : Z) : result spec_float :=
  g ← int_to_float z; Ok (float_mul f g).

(** The integer nearest to [num / den], ties to even ([den > 0]). *)
Definition round_half_even (num den : Z) : Z :=
  let q := num / den in
  match (2 * (num mod den) ?= den) with
  | Lt => q
  | Gt => q + 1
  | Eq => if Z.even q then q else q + 1
  end.

(** [round(x, ndigits)] on a [float], [ndigits >= 0]: the decimal expansion of
    [x] is rounded to [ndigits] places (ties to even), and the decimal is read
    back as the nearest [float]. *)
Definition py_round (x : spec_float) (ndigits : nat) : result spec_float :=
  match x with
  | S754_finite s m e =>
    if (323 <? Z.of_nat ndigits) then Ok x else
    let scale := 10 ^ Z.of_nat ndigits in
    let n := if 0 <=? e then Zpos m * 2 ^ e * scale
             else round_half_even (Zpos m * scale) (2 ^ (- e)) in
    match n with
    | Zpos p =>
      match float_div (S754_finite s p 0) (S754_finite false (Z.to_pos scale) 0) with
      | S754_infinity _ => Raise (Builtin OverflowError)
      | r => Ok r
      end
    | _ => Ok (S754_zero s)
    end
  | _ => Ok x
  end.

(** ** Containers *)

(** [key in ob], with [key] a [str]. *)
Definition py_contains (key : string) (ob : value) : result bool :=
  match ob with
  | VDict items => Ok (existsb (fun kv => String.eqb (fst kv) key) items)
  | VList l =>
    Ok (existsb (fun x => match x with VStr s => String.eqb s key | _ => false end) l)
  | VStr s => Ok (str_contains key s)
  | _ => Raise (Builtin TypeError)
  end.

Fixpoint dict_get (items : list (string * value)) (key : string) : option value :=
  match items with
  | [] => None
  | (k, v) :: items' => if String.eqb k key then Some v else dict_get items' key
  end.

(** [ob[key]], with [key] a [str]: only a [dict] can be indexed by a [str]. *)
Definition py_getitem (ob : value) (key : string) : result value :=
  match ob with
  | VDict items =>
    match dict_get items key with
    | Some v => Ok v
    | None => Raise (Builtin (KeyError key))
    end
  | _ => Raise (Builtin TypeError)
  end.

(** A [for] loop over a list that updates an accumulator and may raise. *)
Fixpoint for_each {A B : Type} (body : A -> B -> result A) (acc : A) (l : list B)
  : result A :=
  match l with
  | [] => Ok acc
  | x :: l' => acc' ← body acc x; for_each body acc' l'
  end.

(** ** The environment of the service *)

(** What the program takes from the interpreter, its libraries and the outside
    world.  [generate_content sent prompt] is the outcome of
    [self.model.generate_content(prompt)] followed by reading [.text], when
    [sent] are the prompts of the earlier calls: [inl msg] when it raises (an
    exception [e] with [str(e) = msg]), [inr text] otherwise.  [uuid4 n] is
    [str(uuid.uuid4())] at the [n]-th draw. *)
Class Runtime : Type := {
  str_lower : string -> string;
  json_loads : string -> option value;
  float_str : spec_float -> string;
  builtin_str : builtin_error -> string;
  generate_content : list string -> string -> string + string;
  uuid4 : nat -> string
}.

(** ** State *)

Inductive role : Type := user | assistant.

Record turn : Type := Turn { turn_role : role; content : string }.

(** [sessions] and [evaluations] are the two attributes of the service;
    [sent] (the prompts sent to the model so far, oldest first) and [draws]
    (the number of identifiers drawn so far) record its exchanges with the
    outside. *)
Record state : Type := State {
  sessions : gmap string (list turn);
  evaluations : gmap string (list value);
  sent : list string;
  draws : nat
}.

(** The service as [__init__] leaves it. *)
Definition init : state := State ∅ ∅ [] 0.

(** What [generate_response] returns. *)
Record response : Type := Response { text : string; session_id : string }.

(** ** The monad of methods *)

Definition M (A : Type) : Type := state -> state * result A.

#[global] Instance M_ret : MRet M := fun A a s => (s, Ok a).
#[global] Instance M_bind : MBind M := fun A B f m s =>
  match m s with
  | (s', Ok a) => f a s'
  | (s', Raise e) => (s', Raise e)
  end.

Definition raise {A : Type} (e : exn) : M A := fun s => (s, Raise e).
Definition lift {A : Type} (r : result A) : M A := fun s => (s, r).
Definition get : M state := fun s => (s, Ok s).
Definition put (s' : state) : M unit := fun _ => (s', Ok tt).

(** [try: body  except Exception as e: handler e] *)
Definition try_except {A : Type} (body : M A) (handler : exn -> M A) : M A :=
  fun s =>
    match body s with
    | (s', Raise e) => handler e s'
    | r => r
    end.

Definition exn_str `{Runtime} (e : exn) : string :=
  match e with
  | Builtin b => builtin_str b
  | ExternalError msg => msg
  | PyException msg => msg
  end.

(** ** Constants of the program *)

Definition lines (l : list string) : string := String.concat nl l.

Definition system_prompt : string :=
  nl +:+ lines [
    "Tu es DebateMaster, un expert en argumentation et en débats.";
    EmptyString;
    "--------------------------------------------------------";
    "MODE 1 = " +:+ dquote +:+ "train" +:+ dquote;
    "Objectif : entraîner l’utilisateur à débattre.";
    "- Réponds comme un expert du débat";
    "- Propose des arguments logiques";
    "- Contredis ou soutiens selon la discussion";
    "- Donne des conseils si l’utilisateur fait une erreur";
    "- Ne donne JAMAIS de score dans ce mode";
    EmptyString;
    "--------------------------------------------------------";
    "MODE 2 = " +:+ dquote +:+ "score" +:+ dquote;
    "Objectif : évaluer la qualité argumentative de l’utilisateur.";
    "À chaque message utilisateur :";
    "- Analyse l’idée principale";
    "- Analyse la cohérence logique";
    "- Analyse l'utilisation de preuves";
    "- Analyse la force argumentative";
    "- Analyse la clarté du style";
    "- Génère une mini-évaluation (score 0–20 pour chaque critère)";
    "Stocke tout cela mais NE RÉVÈLE PAS encore le score.";
    EmptyString;
    "Quand l’utilisateur dit “fin du débat” :";
    "- Fournis un rapport complet :";
    "  * Score global /100";
    "  * Forces";
    "  * Faiblesses";
    "  * Conseils d’amélioration";
    "  * Exemple de meilleure réponse possible";
    "--------------------------------------------------------";
    "Tu adaptes ton comportement selon le mode.";
    "        " ].

Definition evaluation_prompt (message : string) : string :=
  nl +:+ lines [
    "Analyse ce message d'utilisateur pour un débat :";
    EmptyString;
    "Message : " +:+ dquote +:+ message +:+ dquote;
    EmptyString;
    "Donne une analyse sous forme de JSON avec :";
    "- idee_principale (texte)";
    "- logique (score 0-20)";
    "- preuves (score 0-20)";
    "- force_argumentative (score 0-20)";
    "- structure (score 0-20)";
    "- clarte_style (score 0-20)";
    EmptyString ].

Definition report (final_score : string) : string :=
  nl +:+ lines [
    "🎯 **Score final du débat : " +:+ final_score +:+ "/100**";
    EmptyString;
    "✅ **Points forts**";
    "- Analyse basée sur les arguments fournis";
    EmptyString;
    "❌ **Points à améliorer**";
    "- Cohérence";
    "- Structure";
    "- Preuves";
    EmptyString;
    "📘 **Conseils**";
    "- Utilise des exemples concrets";
    "- Structure tes arguments (idée → justification → preuve)";
    "- Améliore la clarté et la logique interne";
    EmptyString ].

Definition terminal_phrases : list string := ["fin du débat"; "fin"; "score"].

Definition criteres : list string :=
  ["logique"; "preuves"; "force_argumentative"; "structure"; "clarte_style"].

Definition no_argument : string := "Aucun argument à évaluer.".
Definition no_score : string := "Impossible de calculer le score.".

(** ** The methods of [ChatbotService] *)

Section Service.
Context `{Runtime}.

Definition set_sessions (m : gmap string (list turn)) (s : state) : state :=
  State m (evaluations s) (sent s) (draws s).
Definition set_evaluations (m : gmap string (list value)) (s : state) : state :=
  State (sessions s) m (sent s) (draws s).

(** [self.sessions[session_id].append(t)] *)
Definition append_turn (sid : string) (t : turn) : M unit :=
  s ← get;
  match sessions s !! sid with
  | Some history => put (set_sessions (<[sid := (history ++ [t])%list]> (sessions s)) s)
  | None => raise (Builtin (KeyError sid))
  end.

(** [self.evaluations[session_id].append(analysis)] *)
Definition append_evaluation (sid : string) (analysis : value) : M unit :=
  s ← get;
  match evaluations s !! sid with
  | Some evs => put (set_evaluations (<[sid := (evs ++ [analysis])%list]> (evaluations s)) s)
  | None => raise (Builtin (KeyError sid))
  end.

(** [self.model.generate_content(prompt).text] *)
Definition call_model (prompt : string) : M string :=
  s ← get;
  put (State (sessions s) (evaluations s) (sent s ++ [prompt])%list (draws s));;
  match generate_content (sent s) prompt with
  | inl msg => raise (ExternalError msg)
  | inr response_text => mret response_text
  end.

(** [str(uuid.uuid4())] *)
Definition new_uuid : M string :=
  s ← get;
  put (State (sessions s) (evaluations s) (sent s) (S (draws s)));;
  mret (uuid4 (draws s)).

(** [history[-n:]] *)
Definition last_n {A : Type} (n : nat) (history : list A) : list A :=
  drop (length history - n) history.

Definition role_label (r : role) : string :=
  match r with
  | user => "User"
  | assistant => "Assistant"
  end.

Definition _build_context (session_id : string) : M string :=
  s ← get;
  let history := last_n 10 (default [] (sessions s !! session_id)) in
  mret (fold_left
          (fun context msg =>
             context +:+ (role_label (turn_role msg) +:+ ": " +:+ content msg +:+ nl))
          history EmptyString).

Definition _evaluate_argument (message : string) : M value :=
  response_text ← call_model (evaluation_prompt message);
  match json_loads response_text with
  | Some ob => mret ob
  | None => mret (VDict [("raw", VStr response_text)])
  end.

(** The body of the inner loop of [_generate_final_score], with the pair
    [(total_score, count)] as accumulator. *)
Definition add_critere (ev : value) (acc : number * Z) (critere : string)
  : result (number * Z) :=
  present ← py_contains critere ev;
  if (present : bool) then
    v ← py_getitem ev critere;
    total_score ← py_iadd (fst acc) v;
    Ok (total_score, snd acc + 1)
  else Ok acc.

Definition add_evaluation (acc : number * Z) (ev : value) : result (number * Z) :=
  for_each (add_critere ev) acc criteres.

(** [round((total_score / (count * 20)) * 100, 2)] *)
Definition final_score (total_score : number) (count : Z) : result spec_float :=
  q ← py_truediv total_score (count * 20);
  p ← py_mul_int q 100;
  py_round p 2.

Definition _generate_final_score (session_id : string) : M string :=
  s ← get;
  match default [] (evaluations s !! session_id) with
  | [] => mret no_argument
  | evs =>
    acc ← lift (for_each add_evaluation (NInt 0, 0) evs);
    if snd acc =? 0 then mret no_score
    else
      score ← lift (final_score (fst acc) (snd acc));
      mret (report (float_str score))
  end.

Definition is_terminal (message : string) : bool :=
  bool_decide (str_lower message ∈ terminal_phrases).

Definition is_score (mode : string) : bool := bool_decide (mode = "score").

Definition full_prompt (mode context message : string) : string :=
  system_prompt +:+ nl +:+ nl +:+
  "MODE ACTUEL : " +:+ mode +:+ nl +:+ nl +:+
  context +:+ nl +:+
  "Utilisateur : " +:+ message.

Definition generate_response (message mode : string) (session_id : option string)
  : M response :=
  sid ← match session_id with
        | Some sid => if bool_decide (sid = EmptyString) then new_uuid else mret sid
        | None => new_uuid
        end;
  s ← get;
  (if sessions s !! sid is None
   then put (set_evaluations (<[sid := []]> (evaluations s))
              (set_sessions (<[sid := []]> (sessions s)) s))
   else mret tt);;
  append_turn sid (Turn user message);;
  (if is_score mode && negb (is_terminal message)
   then analysis ← _evaluate_argument message; append_evaluation sid analysis
   else mret tt);;
  if is_score mode && is_terminal message
  then
    final_report ← _generate_final_score sid;
    append_turn sid (Turn assistant final_report);;
    mret (Response final_report sid)
  else
    try_except
      (context ← _build_context sid;
       response_text ← call_model (full_prompt mode context message);
       append_turn sid (Turn assistant response_text);;
       mret (Response response_text sid))
      (fun e => raise (PyException ("Erreur génération IA : " +:+ exn_str e))).

Definition clear_session (session_id : string) : M unit :=
  s ← get;
  put (set_sessions (delete session_id (sessions s)) s);;
  s ← get;
  put (set_evaluations (delete session_id (evaluations s)) s).

End Service.

(** ** Views of the state and of the computations

    The definitions below name what the statements talk about. *)

Section Views.
Context `{Runtime}.

(** [self.sessions.get(sid, [])] and [self.evaluations.get(sid, [])] *)
Definition history (sid : string) (s : state) : list turn :=
  default [] (sessions s !! sid).
Definition records (sid : string) (s : state) : list value :=
  default [] (evaluations s !! sid).

(** The identifier [generate_response] works on. *)
Definition session_of (session_id : option string) (s : state) : string :=
  match session_id with
  | Some sid => if bool_decide (sid = EmptyString) then uuid4 (draws s) else sid
  | None => uuid4 (draws s)
  end.

(** The invariant of the store: an identifier has a turn list exactly when it
    has an evaluation list. *)
Definition coherent (s : state) : Prop :=
  forall sid, sessions s !! sid = None <-> evaluations s !! sid = None.

(** The record stored for an evaluation whose text does not parse. *)
Definition raw_record (response_text : string) : value :=
  VDict [("raw", VStr response_text)].

(** The record stored for the evaluation text [response_text]. *)
Definition parsed_record (response_text : string) : value :=
  match json_loads response_text with
  | Some ob => ob
  | None => raw_record response_text
  end.

(** One line of the rendered context, and the lines of a list of turns one
    after the other. *)
Definition render_line (t : turn) : string :=
  role_label (turn_role t) +:+ ": " +:+ content t +:+ nl.
Definition render_lines (window : list turn) : string :=
  foldr (fun t rest => render_line t +:+ rest) EmptyString window.

(** What [_generate_final_score] returns, as a function of the records. *)
Definition final_report (evs : list value) : result string :=
  match evs with
  | [] => Ok no_argument
  | _ =>
    acc ← for_each add_evaluation (NInt 0, 0) evs;
    if snd acc =? 0 then Ok no_score
    else score ← final_score (fst acc) (snd acc); Ok (report (float_str score))
  end.

Definition is_dict (ob : value) : bool :=
  match ob with
  | VDict _ => true
  | _ => false
  end.

(** The values a record holds under the criteria keys, in the order of
    [criteres]; and those of a list of records. *)
Definition present_values (ev : value) : list value :=
  match ev with
  | VDict items => omap (dict_get items) criteres
  | _ => []
  end.
Definition contributions (evs : list value) : list value :=
  concat (map present_values evs).

(** A record as the evaluation prompt asks for it: a dict whose values under
    the criteria keys, when present, are integers between 0 and 20. A
    fallback record is one of them. *)
Definition scored_value (v : value) : bool :=
  match v with
  | VInt z => (0 <=? z) && (z <=? 20)
  | _ => false
  end.
Definition well_formed (ev : value) : bool :=
  match ev with
  | VDict items => forallb scored_value (omap (dict_get items) criteres)
  | _ => false
  end.

(** The sum of a list of values, from the [int] 0. *)
Definition py_sum (vs : list value) : result number := for_each py_iadd (NInt 0) vs.

(** The state after one more prompt, one more turn, one more record. *)
Definition with_sent (prompt : string) (s : state) : state :=
  State (sessions s) (evaluations s) (sent s ++ [prompt])%list (draws s).
Definition with_turn (sid : string) (t : turn) (s : state) : state :=
  set_sessions (<[sid := (history sid s ++ [t])%list]> (sessions s)) s.
Definition with_record (sid : string) (ev : value) (s : state) : state :=
  set_evaluations (<[sid := (records sid s ++ [ev])%list]> (evaluations s)) s.

(** The number of identifiers drawn once [session_id] is resolved. *)
Definition draws_after (session_id : option string) (s : state) : nat :=
  match session_id with
  | Some sid => if bool_decide (sid = EmptyString) then S (draws s) else draws s
  | None => S (draws s)
  end.

(** The state of [generate_response] once the identifier is resolved, the
    session exists and the user turn is recorded. *)
Definition opened (session_id : option string) (message : string) (s : state) : state :=
  let sid := session_of session_id s in
  with_turn sid (Turn user message)
    (match sessions s !! sid with
     | None => State (<[sid := []]> (sessions s)) (<[sid := []]> (evaluations s))
                     (sent s) (draws_after session_id s)
     | Some _ => State (sessions s) (evaluations s) (sent s) (draws_after session_id s)
     end).

(** The three things [generate_response] does next, from the state [s]. *)
Definition evaluation_step (message sid : string) (s : state) : state * result unit :=
  let prompt := evaluation_prompt message in
  match generate_content (sent s) prompt with
  | inl msg => (with_sent prompt s, Raise (ExternalError msg))
  | inr response_text =>
    match evaluations s !! sid with
    | Some _ => (with_record sid (parsed_record response_text) (with_sent prompt s), Ok tt)
    | None => (with_sent prompt s, Raise (Builtin (KeyError sid)))
    end
  end.

Definition report_step (sid : string) (s : state) : state * result response :=
  match final_report (records sid s) with
  | Ok final => (with_turn sid (Turn assistant final) s, Ok (Response final sid))
  | Raise e => (s, Raise e)
  end.

Definition reply_prompt (message mode sid : string) (s : state) : string :=
  full_prompt mode (render_lines (last_n 10 (history sid s))) message.

Definition reply_step (message mode sid : string) (s : state) : state * result response :=
  let prompt := reply_prompt message mode sid s in
  match generate_content (sent s) prompt with
  | inl msg =>
    (with_sent prompt s, Raise (PyException ("Erreur génération IA : " +:+ msg)))
  | inr response_text =>
    (with_turn sid (Turn assistant response_text) (with_sent prompt s),
     Ok (Response response_text sid))
  end.

End Views.

(** ** A scripted environment

    An instance of [Runtime] on which the service can be run: lower-casing of
    the ASCII letters, a parser that knows three texts, a model whose
    replies are decided by markers in the prompt. *)

Definition ascii_lower (c : ascii) : ascii :=
  let n := nat_of_ascii c in
  if (65 <=? n)%nat && (n <=? 90)%nat then ascii_of_nat (n + 32) else c.

Fixpoint lower_ascii (s : string) : string :=
  match s with
  | EmptyString => EmptyString
  | String c s' => String (ascii_lower c) (lower_ascii s')
  end.

Definition json_key (k : string) : string := dquote +:+ k +:+ dquote +:+ ": ".

Definition tens_text : string :=
  "{" +:+ json_key "idee_principale" +:+ dquote +:+ "x" +:+ dquote +:+ ", " +:+
  json_key "logique" +:+ "10, " +:+ json_key "preuves" +:+ "10, " +:+
  json_key "force_argumentative" +:+ "10, " +:+ json_key "structure" +:+ "10, " +:+
  json_key "clarte_style" +:+ "10}".

Definition tens_record : value :=
  VDict [("idee_principale", VStr "x"); ("logique", VInt 10); ("preuves", VInt 10);
         ("force_argumentative", VInt 10); ("structure", VInt 10);
         ("clarte_style", VInt 10)].

Definition words_text : string :=
  "{" +:+ json_key "logique" +:+ dquote +:+ "15/20" +:+ dquote +:+ "}".

Definition words_record : value := VDict [("logique", VStr "15/20")].

Definition scripted_loads (t : string) : option value :=
  if String.eqb t tens_text then Some tens_record
  else if String.eqb t words_text then Some words_record
  else if String.eqb t "7" then Some (VInt 7)
  else None.

Definition scripted_model (_ : list string) (prompt : string) : string + string :=
  if str_contains "Donne une analyse sous forme de JSON" prompt then
    if str_contains "PANNE-ANALYSE" prompt then inl "quota"
    else if str_contains "dix partout" prompt then inr tens_text
    else if str_contains "quinze" prompt then inr words_text
    else if str_contains "sept" prompt then inr "7"
    else inr "Voici mon analyse."
  else
    if str_contains "PANNE-REPONSE" prompt then inl "quota"
    else if str_contains "MODE ACTUEL : train" prompt then inr "Entendu (train)."
    else inr "Entendu.".

Definition digit (n : Z) : string :=
  String (ascii_of_nat (48 + Z.to_nat n)) EmptyString.

(** Decimal numeral of a natural number below 1000. *)
Definition small_numeral (n : Z) : string :=
  (if 100 <=? n then digit (n / 100) else EmptyString) +:+
  (if 10 <=? n then digit (n / 10 mod 10) else EmptyString) +:+
  digit (n mod 10).

(** [str] of a [float] that is a number of hundredths between 0 and 999.99. *)
Definition hundredths_str (x : spec_float) : string :=
  match x with
  | S754_finite false m e =>
    let n := if 0 <=? e then Zpos m * 2 ^ e * 100
             else round_half_even (Zpos m * 100) (2 ^ (- e)) in
    small_numeral (n / 100) +:+ "." +:+ digit (n / 10 mod 10) +:+
    (if n mod 10 =? 0 then EmptyString else digit (n mod 10))
  | S754_zero false => "0.0"
  | _ => "?"
  end.

Definition scripted_builtin_str (b : builtin_error) : string :=
  match b with
  | TypeError => "TypeError"
  | OverflowError => "OverflowError"
  | ZeroDivisionError => "ZeroDivisionError"
  | KeyError key => key
  end.

Definition scripted_uuid4 (n : nat) : string :=
  "00000000-0000-4000-8000-000000000" +:+ small_numeral (100 + Z.of_nat n).

Definition scripted : Runtime := {|
  str_lower := lower_ascii;
  json_loads := scripted_loads;
  float_str := hundredths_str;
  builtin_str := scripted_builtin_str;
  generate_content := scripted_model;
  uuid4 := scripted_uuid4
|}.

(** ** Reachable states, and states that agree on a session *)

(** The states the service can be in. *)
Inductive reachable `{Runtime} : state -> Prop :=
  | reachable_init : reachable init
  | reachable_generate (message mode : string) (session_id : option string) (s : state) :
      reachable s -> reachable (fst (generate_response message mode session_id s))
  | reachable_clear (sid : string) (s : state) :
      reachable s -> reachable (fst (clear_session sid s)).

(** Two states that hold the same for the identifier [sid] and have seen the
    same exchanges with the model. *)
Definition agree (sid : string) (a b : state) : Prop :=
  sessions a !! sid = sessions b !! sid
  ∧ evaluations a !! sid = evaluations b !! sid
  ∧ sent a = sent b.

(** ** Example states *)

(** A session that holds two fallback records, and one that holds none. *)
Definition raw_only : state :=
  State {[ "s1" := [Turn user "a"; Turn user "b"] ]}
        {[ "s1" := [raw_record "Voici mon analyse."; raw_record "..."] ]} [] 0.

(** A session with a scored record and a fallback record. *)
Definition mixed : state :=
  State {[ "s1" := [] ]} {[ "s1" := [tens_record; raw_record "Voici mon analyse."] ]} [] 0.

(** Two records with every criterion at 10. *)
Definition two_tens : state :=
  State {[ "s1" := [] ]} {[ "s1" := [tens_record; tens_record] ]} [] 0.

Definition fifty : spec_float := S754_finite false 7036874417766400 (-47).
Definition hundred : spec_float := S754_finite false 7036874417766400 (-46).

(** The session "s1" after one scored message whose evaluation gives a word
    where a number is expected. *)
Definition after_words : state :=
  fst (generate_response (H:=scripted) "quinze sur vingt" "score" (Some "s1") init).

(** A store where "s1" and "s2" have a history. *)
Definition two_sessions : state :=
  State {[ "s1" := [Turn user "a"; Turn assistant "b"]; "s2" := [Turn user "c"] ]}
        {[ "s1" := [tens_record]; "s2" := [] ]} [] 0.

(** ** Construction, and sequences of calls *)

(** What [ChatbotService(api_key)] gives: a service, or [ValueError(msg)]. *)
Inductive construction : Type :=
  | Constructed (s : state)
  | ValueError (msg : string).

Definition __init__ (api_key : string) : construction :=
  if bool_decide (api_key = EmptyString)
  then ValueError "API key manquante pour Gemini !"
  else Constructed init.

(** A call of one of the two public methods. *)
Inductive call : Type :=
  | Generate (message mode : string) (session_id : option string)
  | Clear (session_id : string).

(** The state a call leaves, whether it returns or raises; and the state a
    sequence of calls leaves. *)
Definition after_call `{Runtime} (s : state) (c : call) : state :=
  match c with
  | Generate message mode session_id => fst (generate_response message mode session_id s)
  | Clear session_id => fst (clear_session session_id s)
  end.
Definition after_calls `{Runtime} (cs : list call) (s : state) : state :=
  fold_left after_call cs s.

(** ** Records the score cannot be computed from *)

(** [critere] is found in [ev] but what is found is not a number (or [ev] is
    not a container at all): the loop of [_generate_final_score] stops there
    with a [TypeError]. *)
Definition fatal_critere (ev : value) (critere : string) : bool :=
  match ev with
  | VDict items =>
    match dict_get items critere with
    | Some v => if as_number v is Some _ then false else true
    | None => false
    end
  | VList l => existsb (fun x => match x with VStr s => String.eqb s critere | _ => false end) l
  | VStr s => str_contains critere s
  | _ => true
  end.

Definition unusable (ev : value) : bool := existsb (fatal_critere ev) criteres.

(** A dict whose values under the criteria keys, when present, are [int]
    (or [bool]); the sum and the number of these values. *)
Definition int_of (v : value) : option Z :=
  match v with
  | VInt z => Some z
  | VBool b => Some (Z.b2z b)
  | _ => None
  end.
Definition int_valued (ev : value) : bool :=
  match ev with
  | VDict items => forallb (fun v => bool_decide (is_Some (int_of v))) (omap (dict_get items) criteres)
  | _ => false
  end.
Definition int_total (evs : list value) : Z :=
  foldr (fun v acc => default 0 (int_of v) + acc) 0 (contributions evs).

(** The record without the items whose key is not a criterion. *)
Definition only_criteres (ev : value) : value :=
  match ev with
  | VDict items => VDict (filter (fun kv => fst kv ∈ criteres) items)
  | _ => ev
  end.

(** The history of a dialogue: user turns, each followed by at most one
    assistant turn. *)
Inductive dialogue : list turn -> Prop :=
  | dialogue_nil : dialogue []
  | dialogue_user (h : list turn) (message : string) :
      dialogue h -> dialogue (h ++ [Turn user message])%list
  | dialogue_answered (h : list turn) (message answer : string) :
      dialogue h -> dialogue (h ++ [Turn user message; Turn assistant answer])%list.

(** Two states hold the same for every identifier but [sid]. *)
Definition same_elsewhere (sid : string) (a b : state) : Prop :=
  forall k, k ≠ sid ->
    sessions a !! k = sessions b !! k ∧ evaluations a !! k = evaluations b !! k.

(** Every stored history is a dialogue. *)
Definition dialogues (s : state) : Prop :=
  forall sid h, sessions s !! sid = Some h -> dialogue h.

(** The calls that do not clear the session [sid]. *)
Definition keeps (sid : string) (c : call) : bool :=
  match c with
  | Generate _ _ _ => true
  | Clear k => negb (String.eqb k sid)
  end.

(** ** Running a method *)

Lemma run_bind {A B : Type} (m : M A) (f : A -> M B) (s : state) :
  (m ≫= f) s = match m s with
               | (s', Ok a) => f a s'
               | (s', Raise e) => (s', Raise e)
               end.
Proof. reflexivity. Qed.

Lemma run_ret {A : Type} (a : A) (s : state) : (mret a : M A) s = (s, Ok a).
Proof. reflexivity. Qed.

Lemma result_bind_ok {A B : Type} (a : A) (f : A -> result B) : (Ok a ≫= f) = f a.
Proof. reflexivity. Qed.

Lemma for_each_app {A B : Type} (body : A -> B -> result A) (l1 l2 : list B) (acc : A) :
  for_each body acc (l1 ++ l2)%list = (acc' ← for_each body acc l1; for_each body acc' l2).
Proof.
  revert acc. induction l1 as [|x l1 IH]; intros acc; simpl; [done|].
  destruct (body acc x) as [acc'|e]; simpl; [apply IH | done].
Qed.

(** ** The final score *)

Lemma _generate_final_score_run `{Runtime} (sid : string) (s : state) :
  _generate_final_score sid s = (s, final_report (records sid s)).
Proof.
  unfold _generate_final_score, final_report, records.
  rewrite run_bind. change (get s) with (s, Ok s). cbv beta iota.
  destruct (default [] (evaluations s !! sid)) as [|ev evs]; [reflexivity|].
  rewrite run_bind. unfold lift.
  destruct (for_each add_evaluation (NInt 0, 0) (ev :: evs)) as [acc|e]; [|reflexivity].
  rewrite result_bind_ok.
  destruct (snd acc =? 0); [reflexivity|].
  rewrite run_bind.
  destruct (final_score (fst acc) (snd acc)); reflexivity.
Qed.

(** A record in which no criterion is found leaves the accumulator alone. *)
Lemma add_critere_absent (ev : value) (critere : string) (acc : number * Z) :
  py_contains critere ev = Ok false -> add_critere ev acc critere = Ok acc.
Proof. intros Habs. unfold add_critere. by rewrite Habs. Qed.

Lemma add_criteres_absent (ev : value) (cs : list string) (acc : number * Z) :
  (forall critere, critere ∈ cs -> py_contains critere ev = Ok false) ->
  for_each (add_critere ev) acc cs = Ok acc.
Proof.
  induction cs as [|c cs IH]; intros Habs; cbn [for_each]; [done|].
  rewrite add_critere_absent by (apply Habs, elem_of_cons; by left).
  rewrite result_bind_ok.
  apply IH. intros c' Hc'. apply Habs, elem_of_cons. by right.
Qed.

Lemma add_evaluations_absent (evs : list value) (acc : number * Z) :
  (forall ev critere, ev ∈ evs -> critere ∈ criteres -> py_contains critere ev = Ok false) ->
  for_each add_evaluation acc evs = Ok acc.
Proof.
  induction evs as [|ev evs IH]; intros Habs; cbn [for_each]; [done|].
  replace (add_evaluation acc ev) with (Ok acc : result (number * Z)).
  - rewrite result_bind_ok.
    apply IH. intros ev' c Hev' Hc. apply Habs; [apply elem_of_cons; by right | done].
  - symmetry. apply add_criteres_absent.
    intros c Hc. apply Habs; [apply elem_of_cons; by left | done].
Qed.

Lemma raw_record_absent (response_text critere : string) :
  critere ∈ criteres -> py_contains critere (raw_record response_text) = Ok false.
Proof.
  intros Hc. unfold criteres in Hc.
  repeat (apply elem_of_cons in Hc as [->|Hc]; [reflexivity|]).
  by apply elem_of_nil in Hc.
Qed.

Lemma report_not_message (score : string) : report score ≠ no_argument ∧ report score ≠ no_score.
Proof. split; discriminate. Qed.

Lemma fallback_only_absent (evs : list value) :
  Forall (fun ev => exists response_text, ev = raw_record response_text) evs ->
  forall ev critere, ev ∈ evs -> critere ∈ criteres -> py_contains critere ev = Ok false.
Proof.
  intros Hraw ev critere Hev Hc.
  rewrite Forall_forall in Hraw. destruct (Hraw ev Hev) as [t ->].
  by apply raw_record_absent.
Qed.

(** C7: when no (record, criterion) pair contributes, that is when the
    membership test [critere in ev] is false for every record of the session
    and every criterion, [_generate_final_score] returns a message and not a
    report with a score: "Aucun argument à évaluer." when the session has no
    record at all, "Impossible de calculer le score." when it has records
    (for instance only fallback records). The state is left as it was. *)
Theorem no_contribution_message `{Runtime} (sid : string) (s : state) :
  (forall ev critere,
      ev ∈ records sid s -> critere ∈ criteres -> py_contains critere ev = Ok false) ->
  _generate_final_score sid s
    = (s, Ok (if records sid s is [] then no_argument else no_score))
  ∧ (forall score, report score ≠ (if records sid s is [] then no_argument else no_score)).
Proof.
  intros Habs. split.
  - rewrite _generate_final_score_run. f_equal.
    unfold final_report.
    destruct (records sid s) as [|ev evs] eqn:Hrec; [done|].
    by rewrite add_evaluations_absent.
  - intros score. destruct (records sid s); apply report_not_message.
Qed.

Lemma no_contribution_message_witness :
  _generate_final_score (H:=scripted) "s1" raw_only = (raw_only, Ok no_score)
  ∧ _generate_final_score (H:=scripted) "s1" init = (init, Ok no_argument).
Proof.
  split.
  - apply (no_contribution_message (H:=scripted) "s1" raw_only).
    apply fallback_only_absent. vm_compute.
    repeat constructor; eexists; reflexivity.
  - apply (no_contribution_message (H:=scripted) "s1" init).
    intros ev critere Hev. vm_compute in Hev. by apply elem_of_nil in Hev.
Defined.

(** ** Fallback records *)

Lemma call_model_run `{Runtime} (prompt : string) (s : state) :
  call_model prompt s =
    (State (sessions s) (evaluations s) (sent s ++ [prompt])%list (draws s),
     match generate_content (sent s) prompt with
     | inl msg => Raise (ExternalError msg)
     | inr response_text => Ok response_text
     end).
Proof.
  unfold call_model. rewrite !run_bind. cbn.
  destruct (generate_content (sent s) prompt); reflexivity.
Qed.

Lemma _evaluate_argument_run `{Runtime} (message : string) (s : state) :
  _evaluate_argument message s =
    (State (sessions s) (evaluations s) (sent s ++ [evaluation_prompt message])%list (draws s),
     match generate_content (sent s) (evaluation_prompt message) with
     | inl msg => Raise (ExternalError msg)
     | inr response_text => Ok (parsed_record response_text)
     end).
Proof.
  unfold _evaluate_argument. rewrite run_bind, call_model_run.
  destruct (generate_content (sent s) (evaluation_prompt message)) as [msg|t]; [reflexivity|].
  unfold parsed_record, raw_record. destruct (json_loads t); reflexivity.
Qed.






(** ** The score as a sum over the contributions *)

Lemma dict_get_existsb (items : list (string * value)) (key : string) :
  existsb (fun kv => String.eqb (fst kv) key) items
  = (if dict_get items key is Some _ then true else false).
Proof.
  induction items as [|[k v] items IH]; cbn [existsb dict_get fst]; [done|].
  destruct (String.eqb k key); [done|]. exact IH.
Qed.

Lemma add_critere_dict (items : list (string * value)) (critere : string)
    (acc : number * Z) :
  add_critere (VDict items) acc critere
  = match dict_get items critere with
    | Some v => total_score ← py_iadd (fst acc) v; Ok (total_score, snd acc + 1)
    | None => Ok acc
    end.
Proof.
  unfold add_critere, py_contains, py_getitem.
  rewrite result_bind_ok, dict_get_existsb.
  destruct (dict_get items critere); reflexivity.
Qed.

Lemma add_criteres_dict (items : list (string * value)) (cs : list string)
    (total_score : number) (count : Z) :
  for_each (add_critere (VDict items)) (total_score, count) cs
  = (total ← for_each py_iadd total_score (omap (dict_get items) cs);
     Ok (total, count + Z.of_nat (length (omap (dict_get items) cs)))).
Proof.
  revert total_score count.
  induction cs as [|c cs IH]; intros total_score count; cbn [for_each omap list_omap].
  - rewrite result_bind_ok. cbn [length]. f_equal. f_equal. lia.
  - rewrite add_critere_dict. cbn [fst snd].
    destruct (dict_get items c) as [v|].
    + cbn [for_each]. destruct (py_iadd total_score v) as [total'|e]; [|done].
      rewrite !result_bind_ok, IH.
      destruct (for_each py_iadd total' (omap (dict_get items) cs)); [|done].
      rewrite !result_bind_ok. cbn [length]. f_equal. f_equal. lia.
    + rewrite result_bind_ok. apply IH.
Qed.

Lemma add_evaluation_dict (items : list (string * value)) (total_score : number)
    (count : Z) :
  add_evaluation (total_score, count) (VDict items)
  = (total ← for_each py_iadd total_score (present_values (VDict items));
     Ok (total, count + Z.of_nat (length (present_values (VDict items))))).
Proof. apply add_criteres_dict. Qed.

Lemma add_evaluations_dicts (evs : list value) (total_score : number) (count : Z) :
  forallb is_dict evs = true ->
  for_each add_evaluation (total_score, count) evs
  = (total ← for_each py_iadd total_score (contributions evs);
     Ok (total, count + Z.of_nat (length (contributions evs)))).
Proof.
  revert total_score count.
  induction evs as [|ev evs IH]; intros total_score count Hdict.
  - cbn. f_equal. f_equal. lia.
  - cbn [forallb] in Hdict. apply andb_true_iff in Hdict as [Hev Hevs].
    destruct ev as [| | | | | |items]; try discriminate Hev.
    cbn [for_each]. rewrite add_evaluation_dict.
    unfold contributions. cbn [map concat]. fold (contributions evs).
    rewrite for_each_app.
    destruct (for_each py_iadd total_score (present_values (VDict items))) as [total'|e];
      [|done].
    rewrite !result_bind_ok, IH by done.
    destruct (for_each py_iadd total' (contributions evs)); [|done].
    rewrite !result_bind_ok, length_app, Nat2Z.inj_add. f_equal. f_equal. lia.
Qed.

Lemma py_sum_ints (zs : list Z) (a : Z) :
  for_each py_iadd (NInt a) (VInt <$> zs) = Ok (NInt (a + foldr Z.add 0 zs)).
Proof.
  revert a. induction zs as [|z zs IH]; intros a; cbn.
  - f_equal. f_equal. lia.
  - rewrite IH. f_equal. f_equal. lia.
Qed.

(** C2: the result of [_generate_final_score] is a function of the records of
    the session alone. When the records are dicts and at least one value is
    present under a criteria key, it is the report of the score
    [round((sum / (count * 20)) * 100, 2)], where [sum] is the sum of all the
    values present under the criteria keys over all records and [count] is
    their number; a sum of [int] values is their exact sum. *)
Theorem final_score_formula `{Runtime} (sid : string) (s : state) :
  (forall sid' s', records sid' s' = records sid s ->
     snd (_generate_final_score sid' s') = snd (_generate_final_score sid s))
  ∧ (forallb is_dict (records sid s) = true ->
     contributions (records sid s) ≠ [] ->
     let vs := contributions (records sid s) in
     let count := Z.of_nat (length vs) in
     _generate_final_score sid s
       = (s, total ← py_sum vs;
             q ← py_truediv total (count * 20);
             p ← py_mul_int q 100;
             score ← py_round p 2;
             Ok (report (float_str score)))
     ∧ (forall zs, vs = VInt <$> zs -> py_sum vs = Ok (NInt (foldr Z.add 0 zs)))).
Proof.
  split.
  { intros sid' s' Hsame. rewrite !_generate_final_score_run. cbn [snd]. by rewrite Hsame. }
  intros Hdict Hne vs count. split.
  - rewrite _generate_final_score_run. f_equal. unfold final_report.
    destruct (records sid s) as [|ev evs] eqn:Hrec; [done|].
    rewrite add_evaluations_dicts by done. fold vs. unfold py_sum.
    destruct (for_each py_iadd (NInt 0) vs) as [total|e]; [|done].
    rewrite !result_bind_ok. cbn [fst snd]. fold count.
    assert (0 < count) as Hpos.
    { subst count. change (vs ≠ []) in Hne. clearbody vs.
      destruct vs; [done|]. cbn [length]. lia. }
    replace (0 + count) with count by lia.
    replace (count =? 0) with false by (symmetry; apply Z.eqb_neq; lia).
    unfold final_score.
    destruct (py_truediv total (count * 20)) as [q|]; [|done].
    rewrite !result_bind_ok.
    destruct (py_mul_int q 100) as [p|]; [|done].
    rewrite !result_bind_ok.
    destruct (py_round p 2); done.
  - intros zs ->. unfold py_sum. by rewrite py_sum_ints.
Qed.

Lemma final_score_formula_witness :
  _generate_final_score (H:=scripted) "s1" two_tens
    = (two_tens, Ok (report (float_str (Runtime:=scripted) fifty)))
  ∧ py_sum (contributions (records "s1" two_tens)) = Ok (NInt 100)
  ∧ Z.of_nat (length (contributions (records "s1" two_tens))) = 10
  ∧ final_score (NInt 100) 10 = Ok fifty
  ∧ float_str (Runtime:=scripted) fifty = "50.0".
Proof.
  assert (contributions (records "s1" two_tens) ≠ []) as Hne by (vm_compute; discriminate).
  destruct (final_score_formula (H:=scripted) "s1" two_tens) as [_ Hformula].
  destruct (Hformula eq_refl Hne) as [Hrun Hsum].
  split; [|split; [|split; [|split]]].
  - rewrite Hrun. vm_compute. reflexivity.
  - vm_compute. reflexivity.
  - vm_compute. reflexivity.
  - vm_compute. reflexivity.
  - vm_compute. reflexivity.
Defined.

(** ** The rendered context *)

Lemma append_cons (x : ascii) (a b : string) : String x a +:+ b = String x (a +:+ b).
Proof. reflexivity. Qed.

Lemma append_assoc (a b c : string) : (a +:+ b) +:+ c = a +:+ (b +:+ c).
Proof. induction a as [|x a IH]; [done|]. by rewrite !append_cons, IH. Qed.

Lemma append_empty_r (a : string) : a +:+ EmptyString = a.
Proof. induction a as [|x a IH]; [done|]. by rewrite append_cons, IH. Qed.

Lemma fold_left_render (window : list turn) (context : string) :
  fold_left
    (fun context msg =>
       context +:+ (role_label (turn_role msg) +:+ ": " +:+ content msg +:+ nl))
    window context
  = context +:+ render_lines window.
Proof.
  revert context. induction window as [|t window IH]; intros context; cbn [fold_left].
  - cbn [render_lines foldr]. by rewrite append_empty_r.
  - rewrite IH. cbn [render_lines foldr]. fold (render_lines window).
    unfold render_line. by rewrite append_assoc.
Qed.

Lemma _build_context_run (sid : string) (s : state) :
  _build_context sid s = (s, Ok (render_lines (last_n 10 (history sid s)))).
Proof.
  unfold _build_context. rewrite run_bind. change (get s) with (s, Ok s). cbv beta iota.
  rewrite run_ret. f_equal. f_equal. apply fold_left_render.
Qed.

Lemma last_n_length {A : Type} (n : nat) (l : list A) :
  length (last_n n l) = (n `min` length l)%nat.
Proof. unfold last_n. rewrite length_drop. lia. Qed.

Lemma last_n_snoc {A : Type} (n : nat) (l : list A) (x : A) :
  last_n (S n) (l ++ [x])%list = (last_n n l ++ [x])%list.
Proof.
  unfold last_n. rewrite length_app. cbn [length].
  replace (length l + 1 - S n)%nat with (length l - n)%nat by lia.
  rewrite drop_app.
  replace (length l - n - length l)%nat with 0%nat by lia. reflexivity.
Qed.

(** C8: the context [_build_context] renders is made of the last 10 turns of
    the session, fewer when the history is shorter, in the order in which they
    were appended: one line "User: <content>" or "Assistant: <content>" per
    turn, one after the other. Appending a turn makes it the last line and
    keeps the 9 turns before it. *)
Theorem recent_context_window (sid : string) (s : state) :
  let window := last_n 10 (history sid s) in
  _build_context sid s = (s, Ok (render_lines window))
  ∧ length window = (10 `min` length (history sid s))%nat
  ∧ history sid s = (take (length (history sid s) - 10) (history sid s) ++ window)%list
  ∧ (forall t, render_line t
               = (if turn_role t is user then "User" else "Assistant")
                   +:+ ": " +:+ content t +:+ nl)
  ∧ (forall (older : list turn) (t : turn),
        last_n 10 (older ++ [t])%list = (last_n 9 older ++ [t])%list).
Proof.
  intros window. split; [|split; [|split; [|split]]].
  - apply _build_context_run.
  - apply last_n_length.
  - unfold window, last_n. by rewrite take_drop.
  - reflexivity.
  - intros older t. apply last_n_snoc.
Qed.

(** ** Running [generate_response] *)

Lemma append_turn_run (sid : string) (t : turn) (s : state) :
  is_Some (sessions s !! sid) -> append_turn sid t s = (with_turn sid t s, Ok tt).
Proof.
  intros [h Hh]. unfold append_turn, with_turn, history.
  rewrite run_bind. change (get s) with (s, Ok s). cbv beta iota.
  rewrite Hh. reflexivity.
Qed.

Lemma append_evaluation_run (sid : string) (ev : value) (s : state) :
  append_evaluation sid ev s
  = match evaluations s !! sid with
    | Some _ => (with_record sid ev s, Ok tt)
    | None => (s, Raise (Builtin (KeyError sid)))
    end.
Proof.
  unfold append_evaluation, with_record, records.
  rewrite run_bind. change (get s) with (s, Ok s). cbv beta iota.
  destruct (evaluations s !! sid); reflexivity.
Qed.

Lemma new_uuid_run `{Runtime} (s : state) :
  new_uuid s = (State (sessions s) (evaluations s) (sent s) (S (draws s)), Ok (uuid4 (draws s))).
Proof. reflexivity. Qed.

Lemma reply_run `{Runtime} (message mode sid : string) (s : state) :
  is_Some (sessions s !! sid) ->
  try_except
    (context ← _build_context sid;
     response_text ← call_model (full_prompt mode context message);
     append_turn sid (Turn assistant response_text);;
     mret (Response response_text sid))
    (fun e => raise (PyException ("Erreur génération IA : " +:+ exn_str e))) s
  = reply_step message mode sid s.
Proof.
  intros Hsome. unfold try_except, reply_step, reply_prompt.
  rewrite run_bind, _build_context_run. cbv beta iota.
  rewrite run_bind, call_model_run.
  destruct (generate_content (sent s) _) as [msg|t]; [reflexivity|].
  rewrite run_bind, append_turn_run by exact Hsome.
  reflexivity.
Qed.

(** [generate_response] as the composition of its steps. *)
Lemma generate_response_run `{Runtime} (message mode : string) (session_id : option string)
    (s : state) :
  generate_response message mode session_id s
  = let sid := session_of session_id s in
    let s1 := opened session_id message s in
    if is_score mode && is_terminal message then report_step sid s1
    else
      match (if is_score mode then evaluation_step message sid s1 else (s1, Ok tt)) with
      | (s2, Ok _) => reply_step message mode sid s2
      | (s2, Raise e) => (s2, Raise e)
      end.
Proof.
  unfold generate_response.
  rewrite run_bind.
  set (sid := session_of session_id s).
  set (s0 := State (sessions s) (evaluations s) (sent s) (draws_after session_id s)).
  assert (match session_id with
        | Some sid => if bool_decide (sid = EmptyString) then new_uuid else mret sid
        | None => new_uuid
        end s = (s0, Ok sid)) as ->.
  { subst sid s0. unfold session_of, draws_after. destruct session_id as [x|]; [|reflexivity].
    destruct (bool_decide (x = EmptyString)); [reflexivity|]. by destruct s. }
  rewrite run_bind. change (get s0) with (s0, Ok s0). cbv beta iota.
  rewrite run_bind.
  set (s1 := match sessions s !! sid with
             | None => State (<[sid := []]> (sessions s)) (<[sid := []]> (evaluations s))
                             (sent s) (draws_after session_id s)
             | Some _ => s0
             end).
  assert ((if sessions s0 !! sid is Some _
      then mret ()
      else
       put
         (set_evaluations (<[sid:=[]]> (evaluations s0))
            (set_sessions (<[sid:=[]]> (sessions s0)) s0)))
       s0 = (s1, Ok tt)) as ->.
  { subst s1 s0. cbn [sessions]. destruct (sessions s !! sid); reflexivity. }
  assert (is_Some (sessions s1 !! sid)) as Hsome.
  { subst s1 s0. destruct (sessions s !! sid) eqn:Hs; cbn [sessions].
    - by rewrite Hs.
    - rewrite lookup_insert_eq. by eexists. }
  rewrite run_bind, append_turn_run by exact Hsome.
  change (with_turn sid (Turn user message) s1) with (opened session_id message s).
  set (s2 := opened session_id message s).
  assert (is_Some (sessions s2 !! sid)) as Hsome2.
  { subst s2. unfold opened, with_turn. cbn [sessions set_sessions]. fold sid.
    rewrite lookup_insert_eq. by eexists. }
  clearbody s2. clear s1 Hsome s0.
  rewrite run_bind.
  destruct (is_score mode); cbn [andb].
  - destruct (is_terminal message); cbn [negb].
    + rewrite run_ret. rewrite run_bind, _generate_final_score_run.
      unfold report_step. destruct (final_report (records sid s2)); [|reflexivity].
      rewrite run_bind, append_turn_run by exact Hsome2. reflexivity.
    + rewrite run_bind, _evaluate_argument_run. unfold evaluation_step.
      destruct (generate_content (sent s2) (evaluation_prompt message)) as [msg|t];
        [reflexivity|].
      rewrite append_evaluation_run. cbn [evaluations].
      destruct (evaluations s2 !! sid); [|reflexivity].
      apply reply_run. 
      unfold with_record, with_sent. cbn [sessions set_evaluations]. exact Hsome2.
  - rewrite run_ret. by apply reply_run.
Qed.

(** What the steps do to the views of the state. *)

Lemma history_with_turn (sid : string) (t : turn) (s : state) :
  history sid (with_turn sid t s) = (history sid s ++ [t])%list.
Proof. unfold history at 1, with_turn. cbn [sessions set_sessions]. by rewrite lookup_insert_eq. Qed.

Lemma history_with_turn_ne (sid sid' : string) (t : turn) (s : state) :
  sid ≠ sid' -> history sid' (with_turn sid t s) = history sid' s.
Proof.
  intros Hne. unfold history, with_turn. cbn [sessions set_sessions].
  by rewrite lookup_insert_ne.
Qed.

Lemma records_with_record (sid : string) (ev : value) (s : state) :
  records sid (with_record sid ev s) = (records sid s ++ [ev])%list.
Proof.
  unfold records at 1, with_record. cbn [evaluations set_evaluations].
  by rewrite lookup_insert_eq.
Qed.

Lemma history_opened `{Runtime} (session_id : option string) (message : string) (s : state) :
  history (session_of session_id s) (opened session_id message s)
  = (history (session_of session_id s) s ++ [Turn user message])%list.
Proof.
  unfold opened. rewrite history_with_turn. f_equal.
  unfold history. destruct (sessions s !! session_of session_id s) eqn:Hs; cbn [sessions].
  - by rewrite Hs.
  - by rewrite lookup_insert_eq.
Qed.

Lemma records_opened `{Runtime} (session_id : option string) (message : string) (s : state) :
  coherent s ->
  records (session_of session_id s) (opened session_id message s)
  = records (session_of session_id s) s.
Proof.
  intros Hco. unfold opened, with_turn, records. cbn [evaluations set_sessions].
  destruct (sessions s !! session_of session_id s) eqn:Hs; cbn [evaluations]; [done|].
  apply Hco in Hs. by rewrite lookup_insert_eq, Hs.
Qed.

Lemma sent_opened `{Runtime} (session_id : option string) (message : string) (s : state) :
  sent (opened session_id message s) = sent s.
Proof. unfold opened. by destruct (sessions s !! session_of session_id s). Qed.

Lemma evaluations_opened `{Runtime} (session_id : option string) (message : string)
    (s : state) :
  coherent s ->
  is_Some (evaluations (opened session_id message s) !! session_of session_id s).
Proof.
  intros Hco. unfold opened, with_turn. cbn [evaluations set_sessions].
  destruct (sessions s !! session_of session_id s) eqn:Hs; cbn [evaluations].
  - destruct (evaluations s !! session_of session_id s) eqn:He; [by eexists|].
    apply Hco in He. congruence.
  - rewrite lookup_insert_eq. by eexists.
Qed.

Lemma is_score_score : is_score "score" = true.
Proof. reflexivity. Qed.

Lemma is_score_other (mode : string) : mode ≠ "score" -> is_score mode = false.
Proof. intros Hne. unfold is_score. by apply bool_decide_eq_false_2. Qed.

Lemma is_terminal_true `{Runtime} (message : string) :
  str_lower message ∈ terminal_phrases -> is_terminal message = true.
Proof. intros Hin. unfold is_terminal. by apply bool_decide_eq_true_2. Qed.

Lemma is_terminal_false `{Runtime} (message : string) :
  str_lower message ∉ terminal_phrases -> is_terminal message = false.
Proof. intros Hin. unfold is_terminal. by apply bool_decide_eq_false_2. Qed.

(** ** The invariant of the store *)

Lemma coherent_init : coherent init.
Proof. intros sid. unfold init. cbn [sessions evaluations]. by rewrite !lookup_empty. Qed.

Lemma coherent_with_sent (prompt : string) (s : state) :
  coherent s -> coherent (with_sent prompt s).
Proof. intros Hco sid. apply Hco. Qed.

Lemma coherent_with_turn (sid : string) (t : turn) (s : state) :
  coherent s -> is_Some (evaluations s !! sid) -> coherent (with_turn sid t s).
Proof.
  intros Hco [evs Hevs] k. unfold with_turn. cbn [sessions evaluations set_sessions].
  destruct (decide (sid = k)) as [<-|Hne].
  - rewrite lookup_insert_eq, Hevs. split; discriminate.
  - rewrite lookup_insert_ne by done. apply Hco.
Qed.

Lemma coherent_with_record (sid : string) (ev : value) (s : state) :
  coherent s -> is_Some (sessions s !! sid) -> coherent (with_record sid ev s).
Proof.
  intros Hco [h Hh] k. unfold with_record. cbn [sessions evaluations set_evaluations].
  destruct (decide (sid = k)) as [<-|Hne].
  - rewrite lookup_insert_eq, Hh. split; discriminate.
  - rewrite lookup_insert_ne by done. apply Hco.
Qed.

Lemma coherent_opened `{Runtime} (session_id : option string) (message : string) (s : state) :
  coherent s -> coherent (opened session_id message s).
Proof.
  intros Hco. unfold opened.
  destruct (sessions s !! session_of session_id s) eqn:Hs.
  - apply coherent_with_turn; [exact Hco|]. cbn [evaluations].
    destruct (evaluations s !! session_of session_id s) eqn:He; [by eexists|].
    apply Hco in He. congruence.
  - apply coherent_with_turn.
    + intros k. cbn [sessions evaluations].
      destruct (decide (session_of session_id s = k)) as [<-|Hne].
      * rewrite !lookup_insert_eq. split; discriminate.
      * rewrite !lookup_insert_ne by done. apply Hco.
    + cbn [evaluations]. rewrite lookup_insert_eq. by eexists.
Qed.

Lemma sessions_opened `{Runtime} (session_id : option string) (message : string) (s : state) :
  is_Some (sessions (opened session_id message s) !! session_of session_id s).
Proof.
  unfold opened, with_turn. cbn [sessions set_sessions].
  rewrite lookup_insert_eq. by eexists.
Qed.

Lemma generate_response_coherent `{Runtime} (message mode : string)
    (session_id : option string) (s : state) :
  coherent s -> coherent (fst (generate_response message mode session_id s)).
Proof.
  intros Hco. rewrite generate_response_run. cbv zeta.
  pose proof (coherent_opened session_id message s Hco) as Hco1.
  pose proof (evaluations_opened session_id message s Hco) as Hev1.
  pose proof (sessions_opened session_id message s) as Hse1.
  set (sid := session_of session_id s) in *.
  set (s1 := opened session_id message s) in *. clearbody s1.
  assert (forall s2, coherent s2 -> is_Some (evaluations s2 !! sid) ->
                     coherent (fst (reply_step message mode sid s2))) as Hreply.
  { intros s2 Hco2 Hev2. unfold reply_step.
    destruct (generate_content (sent s2) _); cbn [fst].
    - by apply coherent_with_sent.
    - apply coherent_with_turn; [by apply coherent_with_sent | exact Hev2]. }
  destruct (is_score mode); cbn [andb].
  - destruct (is_terminal message).
    + unfold report_step. destruct (final_report (records sid s1)); cbn [fst]; [|done].
      by apply coherent_with_turn.
    + unfold evaluation_step.
      destruct (generate_content (sent s1) (evaluation_prompt message)); cbn [fst].
      { by apply coherent_with_sent. }
      destruct Hev1 as [evs Hevs]. rewrite Hevs.
      apply Hreply.
      * apply coherent_with_record; [by apply coherent_with_sent | exact Hse1].
      * unfold with_record. cbn [evaluations set_evaluations].
        rewrite lookup_insert_eq. by eexists.
  - by apply Hreply.
Qed.

Lemma clear_session_run (sid : string) (s : state) :
  clear_session sid s
  = (State (delete sid (sessions s)) (delete sid (evaluations s)) (sent s) (draws s), Ok tt).
Proof. reflexivity. Qed.

Lemma clear_session_coherent (sid : string) (s : state) :
  coherent s -> coherent (fst (clear_session sid s)).
Proof.
  intros Hco k. rewrite clear_session_run. cbn [fst sessions evaluations].
  destruct (decide (sid = k)) as [<-|Hne].
  - by rewrite !lookup_delete_eq.
  - rewrite !lookup_delete_ne by done. apply Hco.
Qed.

Lemma reachable_coherent `{Runtime} (s : state) : reachable s -> coherent s.
Proof.
  induction 1 as [|message mode session_id s _ IH|sid s _ IH].
  - apply coherent_init.
  - by apply generate_response_coherent.
  - by apply clear_session_coherent.
Qed.

(** ** Scores are computed without overflow *)

Ltac lia_log2 :=
  repeat match goal with
         | H : context [Z.log2 ?x] |- _ => generalize dependent (Z.log2 x)
         | |- context [Z.log2 ?x] => generalize dependent (Z.log2 x)
         end;
  intros; lia.

Lemma digits2_pos_log2 (p : positive) : Zpos (digits2_pos p) = Z.log2 (Zpos p) + 1.
Proof.
  assert (forall q, digits2_pos q = Pos.size q) as Hsize.
  { induction q as [q IH|q IH|]; cbn; by rewrite ?IH. }
  rewrite Hsize. destruct p as [p|p|]; cbn; lia.
Qed.

Lemma Zdigits2_nonneg (m : Z) : 0 <= Zdigits2 m.
Proof. destruct m; cbn; lia. Qed.

Lemma Zdigits2_pos (m : Z) : 0 < m -> Zdigits2 m = Z.log2 m + 1.
Proof. destruct m as [|p|p]; try lia. intros _. apply digits2_pos_log2. Qed.

Lemma Zdigits2_mono (a b : Z) : 0 <= a <= b -> Zdigits2 a <= Zdigits2 b.
Proof.
  intros [Ha Hab]. destruct (Z.eq_dec a 0) as [->|Hne]; [apply Zdigits2_nonneg|].
  rewrite !Zdigits2_pos by lia. pose proof (Z.log2_le_mono a b Hab). lia_log2.
Qed.

Lemma Zdigits2_succ (m : Z) : 0 <= m -> Zdigits2 (m + 1) <= Zdigits2 m + 1.
Proof.
  intros Hm. destruct (Z.eq_dec m 0) as [->|Hne]; [vm_compute; discriminate|].
  rewrite !Zdigits2_pos by lia.
  pose proof (Z.log2_succ_le m) as Hs. rewrite <- !Z.add_1_r in Hs. lia_log2.
Qed.

Lemma Zdigits2_mul (a b : Z) : 0 <= a -> 0 <= b -> Zdigits2 (a * b) <= Zdigits2 a + Zdigits2 b.
Proof.
  intros Ha Hb.
  destruct (Z.eq_dec a 0) as [->|Hna]; [cbn; apply Zdigits2_nonneg|].
  destruct (Z.eq_dec b 0) as [->|Hnb]; [rewrite Z.mul_0_r; cbn; pose proof (Zdigits2_nonneg a); lia|].
  rewrite !Zdigits2_pos by nia.
  pose proof (Z.log2_mul_above a b Ha Hb). lia_log2.
Qed.

Lemma Zdigits2_pow2 (a s : Z) : 0 < a -> 0 <= s -> Zdigits2 (a * 2 ^ s) = Zdigits2 a + s.
Proof.
  intros Ha Hs. assert (0 < 2 ^ s) by (apply Z.pow_pos_nonneg; lia).
  rewrite !Zdigits2_pos by nia. rewrite Z.log2_mul_pow2 by lia. lia_log2.
Qed.

Lemma Zdigits2_div (a b : Z) : 0 <= a -> 0 < b -> Zdigits2 (a / b) <= Z.max (Zdigits2 a - Zdigits2 b + 1) 0.
Proof.
  intros Ha Hb. pose proof (Z.div_pos a b Ha Hb) as Hq.
  destruct (Z.eq_dec (a / b) 0) as [->|Hne]; [cbn; lia|].
  assert (0 < a).
  { destruct (Z.eq_dec a 0) as [->|]; [|lia]. by rewrite Z.div_0_l in Hne by lia. }
  rewrite !Zdigits2_pos by lia.
  pose proof (Z.log2_mul_below (a / b) b ltac:(lia) Hb) as Hbelow.
  pose proof (Z.mul_div_le a b Hb) as Hle.
  pose proof (Z.log2_le_mono (a / b * b) a ltac:(lia)). lia_log2.
Qed.

Lemma shr_1_div2 (mrs : shr_record) : 0 <= shr_m mrs -> shr_m (shr_1 mrs) = shr_m mrs / 2.
Proof.
  destruct mrs as [m r s]. cbn [shr_m]. intros Hm.
  rewrite <- Z.div2_div.
  destruct m as [|p|p]; [reflexivity| |lia].
  destruct p; reflexivity.
Qed.

Lemma pow2_xO (n : positive) : 2 ^ Z.pos n~0 = 2 ^ Z.pos n * 2 ^ Z.pos n.
Proof. rewrite <- Z.pow_add_r by lia. f_equal. lia. Qed.

Lemma pow2_xI (n : positive) : 2 ^ Z.pos n~1 = 2 * (2 ^ Z.pos n * 2 ^ Z.pos n).
Proof.
  rewrite <- Z.pow_add_r, <- Z.pow_succ_r by lia. f_equal. lia.
Qed.

Lemma shr_iter_div (n : positive) (mrs : shr_record) :
  0 <= shr_m mrs -> shr_m (SpecFloat.iter_pos shr_1 n mrs) = shr_m mrs / 2 ^ Zpos n.
Proof.
  revert mrs. induction n as [n IH|n IH|]; intros mrs Hm; cbn [SpecFloat.iter_pos].
  - assert (0 <= shr_m (shr_1 mrs)) as H1.
    { rewrite shr_1_div2 by done. by apply Z.div_pos. }
    assert (0 < 2 ^ Z.pos n) as Hp by (apply Z.pow_pos_nonneg; lia).
    assert (0 <= shr_m (SpecFloat.iter_pos shr_1 n (shr_1 mrs))) as H2.
    { rewrite IH by done. by apply Z.div_pos. }
    rewrite !IH, shr_1_div2 by done.
    rewrite !Z.div_div by lia. by rewrite pow2_xI.
  - assert (0 < 2 ^ Z.pos n) as Hp by (apply Z.pow_pos_nonneg; lia).
    assert (0 <= shr_m (SpecFloat.iter_pos shr_1 n mrs)) as H2.
    { rewrite IH by done. by apply Z.div_pos. }
    rewrite !IH by done. rewrite !Z.div_div by lia. by rewrite pow2_xO.
  - rewrite shr_1_div2 by done. by rewrite Z.pow_1_r.
Qed.

(** The exponent after [shr_fexp], and the size of the mantissa. *)
Lemma shr_fexp_bound (m e : Z) (l : location) (mu : Z) :
  0 <= m -> Zdigits2 m + e <= mu -> e <= 971 -> - 1074 <= mu -> mu <= 1024 ->
  let '(mrs, e') := shr_fexp prec emax m e l in
  0 <= shr_m mrs ∧ Zdigits2 (shr_m mrs) + e' <= mu ∧ e' <= 971.
Proof.
  intros Hm Hmu He Hlo Hhi. unfold shr_fexp, shr.
  pose proof (Zdigits2_nonneg m) as Hd.
  assert (fexp prec emax (Zdigits2 m + e) <= Z.max (mu - 53) (-1074)) as Hfexp.
  { unfold fexp, emin, prec, emax. lia. }
  destruct (fexp prec emax (Zdigits2 m + e) - e) as [|n|n] eqn:Hn.
  - destruct l as [|[]]; cbn [shr_record_of_loc shr_m]; lia.
  - assert (shr_m (shr_record_of_loc m l) = m) as Hrec by (by destruct l as [|[]]).
    rewrite shr_iter_div by (rewrite Hrec; lia). rewrite Hrec.
    assert (0 < 2 ^ Z.pos n) as Hp by (apply Z.pow_pos_nonneg; lia).
    split; [by apply Z.div_pos|].
    pose proof (Zdigits2_div m (2 ^ Z.pos n) Hm Hp) as Hdiv.
    assert (Zdigits2 (2 ^ Z.pos n) = Z.pos n + 1) as Hpow.
    { rewrite Zdigits2_pos by lia. rewrite Z.log2_pow2 by lia. lia. }
    rewrite Hpow in Hdiv. lia.
  - destruct l as [|[]]; cbn [shr_record_of_loc shr_m]; lia.
Qed.

Lemma round_nearest_even_bound (m : Z) (l : location) :
  0 <= m -> m <= round_nearest_even m l <= m + 1.
Proof. intros Hm. destruct l as [|[]]; cbn; try lia. destruct (Z.even m); lia. Qed.

(** Rounding does not overflow when the number is below [2 ^ 1023]. *)
Lemma binary_round_aux_bound (s : bool) (m e : Z) (l : location) (mu : Z) :
  0 <= m -> Zdigits2 m + e <= mu -> e <= 971 -> - 1074 <= mu -> mu <= 1023 ->
  binary_round_aux prec emax s m e l = S754_zero s
  ∨ exists m' e', binary_round_aux prec emax s m e l = S754_finite s m' e'
                  ∧ Zpos (digits2_pos m') + e' <= mu + 1 ∧ e' <= 971.
Proof.
  intros Hm Hmu He Hlo Hhi. unfold binary_round_aux.
  pose proof (shr_fexp_bound m e l mu Hm Hmu He Hlo ltac:(lia)) as H1.
  destruct (shr_fexp prec emax m e l) as [mrs1 e1]. destruct H1 as (Hm1 & Hmu1 & He1).
  pose proof (round_nearest_even_bound (shr_m mrs1) (loc_of_shr_record mrs1) Hm1) as Hr.
  set (m2 := round_nearest_even (shr_m mrs1) (loc_of_shr_record mrs1)) in *.
  assert (Zdigits2 m2 + e1 <= mu + 1) as Hmu2.
  { pose proof (Zdigits2_mono m2 (shr_m mrs1 + 1) ltac:(lia)).
    pose proof (Zdigits2_succ (shr_m mrs1) Hm1). lia. }
  pose proof (shr_fexp_bound m2 e1 loc_Exact (mu + 1) ltac:(lia) Hmu2 He1 ltac:(lia) ltac:(lia))
    as H2.
  destruct (shr_fexp prec emax m2 e1 loc_Exact) as [mrs2 e2]. destruct H2 as (Hm2 & Hmu3 & He2).
  destruct (shr_m mrs2) as [|p|p] eqn:Hp; [by left| |lia].
  right. exists p, e2.
  replace (e2 <=? emax - prec) with true
    by (symmetry; apply Z.leb_le; unfold emax, prec; lia).
  cbn [Zdigits2] in Hmu3. done.
Qed.

Lemma float_div_ints_bound (s1 s2 : bool) (a b : positive) (mu : Z) :
  Zpos (digits2_pos a) - Zpos (digits2_pos b) + 1 <= mu -> 0 <= mu <= 1023 ->
  float_div (S754_finite s1 a 0) (S754_finite s2 b 0) = S754_zero (xorb s1 s2)
  ∨ exists m' e', float_div (S754_finite s1 a 0) (S754_finite s2 b 0)
                  = S754_finite (xorb s1 s2) m' e'
                  ∧ Zpos (digits2_pos m') + e' <= mu + 1 ∧ e' <= 971.
Proof.
  intros Hmu Hrange. unfold float_div, SFdiv, SFdiv_core_binary.
  cbn [Zdigits2]. rewrite !Z.add_0_r, Z.sub_0_r.
  set (d := Zpos (digits2_pos a) - Zpos (digits2_pos b)) in *.
  set (e' := Z.min (fexp prec emax d) 0).
  assert (e' <= 0) as He' by (subst e'; lia).
  change (0 - e') with (- e').
  set (m' := match - e' with
             | Z0 => Zpos a
             | Zpos _ => Z.shiftl (Zpos a) (- e')
             | Zneg _ => 0
             end).
  assert (m' = Zpos a * 2 ^ (- e')) as Hm'.
  { subst m'. destruct (- e') as [|n|n] eqn:Hn; [lia| |lia].
    by rewrite Z.shiftl_mul_pow2 by lia. }
  change (IntDef.Z.div_eucl m' (Z.pos b)) with (Z.div_eucl m' (Z.pos b)).
  pose proof (Z_div_mod m' (Zpos b) ltac:(lia)) as Hqr.
  destruct (Z.div_eucl m' (Zpos b)) as [q r] eqn:Hdiv.
  assert (q = m' / Zpos b) as Hq by (unfold Z.div; by rewrite Hdiv).
  assert (0 < 2 ^ (- e')) as Hp by (apply Z.pow_pos_nonneg; lia).
  apply binary_round_aux_bound; try lia.
  - rewrite Hq. apply Z.div_pos; nia.
  - rewrite Hq.
    pose proof (Zdigits2_div m' (Zpos b) ltac:(nia) ltac:(lia)) as Hd.
    rewrite Hm', Zdigits2_pow2 in Hd by lia. rewrite Hm'. cbn [Zdigits2] in Hd. lia.
Qed.

Lemma round_half_even_bound (num den : Z) :
  0 <= num -> 0 < den -> num / den <= round_half_even num den <= num / den + 1.
Proof.
  intros Hn Hd. unfold round_half_even.
  destruct (2 * (num mod den) ?= den); [destruct (Z.even (num / den))|..]; lia.
Qed.

Lemma int_to_float_100 : int_to_float 100 = Ok hundred.
Proof. vm_compute. reflexivity. Qed.

(** With a total between 0 and 20 per contribution the score is computed
    without error. *)
Lemma final_score_returns (total count : Z) :
  0 < count -> 0 <= total <= 20 * count ->
  exists score, final_score (NInt total) count = Ok score.
Proof.
  intros Hcount Htotal. unfold final_score.
  assert (exists q, py_truediv (NInt total) (count * 20) = Ok q
                    ∧ (q = S754_zero false
                       ∨ exists m e, q = S754_finite false m e
                                     ∧ Zpos (digits2_pos m) + e <= 2 ∧ e <= 971))
    as (q & -> & Hq).
  { unfold py_truediv. replace (count * 20 =? 0) with false by (symmetry; apply Z.eqb_neq; lia).
    destruct total as [|a|a]; [|clear Hcount|lia].
    - replace (count * 20 <? 0) with false by (symmetry; apply Z.ltb_ge; lia).
      eexists. split; [reflexivity|]. by left.
    - destruct (count * 20) as [|b|b] eqn:Hb; [lia| |lia].
      change (Z.to_pos (Z.abs (Z.pos a))) with a.
      change (Z.to_pos (Z.abs (Z.pos b))) with b.
      change (Z.pos a <? 0) with false. change (Z.pos b <? 0) with false.
      assert (Zpos (digits2_pos a) <= Zpos (digits2_pos b)) as Hd.
      { apply (Zdigits2_mono (Zpos a) (Zpos b)). lia. }
      destruct (float_div_ints_bound false false a b 1 ltac:(lia) ltac:(lia))
        as [Hz|(m & e & Hf & Hm & He)].
      + rewrite Hz. eexists. split; [reflexivity|]. by left.
      + rewrite Hf. eexists. split; [reflexivity|]. right. by exists m, e. }
  rewrite result_bind_ok. unfold py_mul_int. rewrite int_to_float_100, result_bind_ok.
  rewrite result_bind_ok.
  assert (float_mul q hundred = S754_zero false
          ∨ exists m e, float_mul q hundred = S754_finite false m e
                        ∧ Zpos (digits2_pos m) + e <= 10 ∧ e <= 971) as Hp.
  { destruct Hq as [->|(m & e & -> & Hm & He)]; [by left|].
    unfold float_mul, hundred, SFmul. cbn [xorb].
    apply (binary_round_aux_bound false _ _ _ 9); try lia.
    pose proof (Zdigits2_mul (Zpos m) 7036874417766400 ltac:(lia) ltac:(lia)) as Hmul.
    change (Zdigits2 7036874417766400) with 53 in Hmul.
    change (Zdigits2 (Z.pos m)) with (Z.pos (digits2_pos m)) in Hmul.
    rewrite Pos2Z.inj_mul. lia. }
  destruct Hp as [->|(m & e & -> & Hm & He)]; [by eexists|].
  unfold py_round. change (323 <? Z.of_nat 2) with false. cbv iota.
  change (10 ^ Z.of_nat 2) with 100. change (Z.to_pos 100) with 100%positive.
  set (n := if 0 <=? e then Z.pos m * 2 ^ e * 100
            else round_half_even (Z.pos m * 100) (2 ^ (- e))).
  assert (0 <= n ∧ Zdigits2 n <= 18) as [Hn0 Hn].
  { subst n. destruct (0 <=? e) eqn:Hsign.
    - apply Z.leb_le in Hsign.
      assert (0 < 2 ^ e) by (apply Z.pow_pos_nonneg; lia).
      split; [nia|].
      pose proof (Zdigits2_mul (Z.pos m * 2 ^ e) 100 ltac:(nia) ltac:(lia)) as Hmul.
      rewrite Zdigits2_pow2 in Hmul by lia.
      change (Zdigits2 100) with 7 in Hmul. cbn [Zdigits2] in Hmul. lia.
    - apply Z.leb_gt in Hsign.
      assert (0 < 2 ^ (- e)) as Hp by (apply Z.pow_pos_nonneg; lia).
      pose proof (round_half_even_bound (Z.pos m * 100) (2 ^ (- e)) ltac:(lia) Hp) as Hr.
      pose proof (Z.div_pos (Z.pos m * 100) (2 ^ (- e)) ltac:(lia) Hp) as Hq0.
      pose proof (Zdigits2_div (Z.pos m * 100) (2 ^ (- e)) ltac:(lia) Hp) as Hdiv.
      pose proof (Zdigits2_succ _ Hq0) as Hsucc.
      set (quo := Z.pos m * 100 / 2 ^ (- e)) in *.
      set (r := round_half_even (Z.pos m * 100) (2 ^ (- e))) in *.
      assert (Zdigits2 r <= Zdigits2 (quo + 1)) as Hmono.
      { apply Zdigits2_mono. clearbody quo r. lia. }
      assert (Zdigits2 (2 ^ (- e)) = - e + 1) as Hpow.
      { rewrite Zdigits2_pos by lia. rewrite Z.log2_pow2 by lia. lia. }
      pose proof (Zdigits2_mul (Z.pos m) 100 ltac:(lia) ltac:(lia)) as Hmul.
      change (Zdigits2 100) with 7 in Hmul.
      change (Zdigits2 (Z.pos m)) with (Z.pos (digits2_pos m)) in Hmul.
      rewrite Hpow in Hdiv. clearbody quo r. split; lia. }
  destruct n as [|pn|pn]; [by eexists| |lia].
  cbn [Zdigits2] in Hn.
  destruct (float_div_ints_bound false false pn 100 12 ltac:(cbn; lia) ltac:(lia))
    as [Hz|(m' & e' & Hf & _)].
  - rewrite Hz. by eexists.
  - rewrite Hf. by eexists.
Qed.

Lemma py_sum_scored (vs : list value) (a : Z) :
  forallb scored_value vs = true ->
  exists t, for_each py_iadd (NInt a) vs = Ok (NInt (a + t))
            ∧ 0 <= t <= 20 * Z.of_nat (length vs).
Proof.
  revert a. induction vs as [|v vs IH]; intros a Hvs.
  - exists 0. cbn. split; [by rewrite Z.add_0_r | lia].
  - cbn [forallb] in Hvs. apply andb_true_iff in Hvs as [Hv Hvs].
    destruct v as [| |z| | | |]; try discriminate Hv.
    cbn [scored_value] in Hv. apply andb_true_iff in Hv as [Hlo Hhi].
    apply Z.leb_le in Hlo, Hhi.
    destruct (IH (a + z) Hvs) as (t & Ht & Hrange).
    exists (z + t). cbn [for_each py_iadd as_number]. rewrite result_bind_ok, Ht.
    split; [f_equal; f_equal; lia|]. cbn [length]. lia.
Qed.

Lemma well_formed_contributions (evs : list value) :
  forallb well_formed evs = true ->
  forallb is_dict evs = true ∧ forallb scored_value (contributions evs) = true.
Proof.
  induction evs as [|ev evs IH]; intros Hwf; [done|].
  cbn [forallb] in Hwf. apply andb_true_iff in Hwf as [Hev Hevs].
  destruct (IH Hevs) as [Hd Hs].
  destruct ev as [| | | | | |items]; try discriminate Hev.
  split; [exact Hd|].
  unfold contributions. cbn [map concat list_fmap]. fold (contributions evs).
  rewrite forallb_app. apply andb_true_iff. split; [exact Hev | exact Hs].
Qed.

(** With well-formed records the report is computed without error. *)
Lemma final_report_returns `{Runtime} (evs : list value) :
  forallb well_formed evs = true -> exists final, final_report evs = Ok final.
Proof.
  intros Hwf. destruct (well_formed_contributions evs Hwf) as [Hd Hs].
  unfold final_report. destruct evs as [|ev evs]; [by eexists|].
  rewrite add_evaluations_dicts by done.
  destruct (py_sum_scored _ 0 Hs) as (t & -> & Hrange).
  rewrite !result_bind_ok. cbn [fst snd].
  set (count := Z.of_nat (length (contributions (ev :: evs)))) in *.
  destruct (0 + count =? 0) eqn:Hcount; [by eexists|].
  apply Z.eqb_neq in Hcount.
  destruct (final_score_returns (0 + t) (0 + count) ltac:(lia) ltac:(lia)) as [score ->].
  by eexists.
Qed.

(** ** Terminal phrases in score mode *)

(** C1 as stated does not hold: a terminal phrase sent to a session that holds
    the record [{"logique": "15/20"}] returns no report and appends no
    assistant turn, the call raises. *)
Lemma terminal_phrase_without_report :
  reachable (H:=scripted) after_words
  ∧ records "s1" after_words = [words_record]
  ∧ lower_ascii "fin" ∈ terminal_phrases
  ∧ snd (generate_response (H:=scripted) "fin" "score" (Some "s1") after_words)
    = Raise (Builtin TypeError)
  ∧ history "s1" (fst (generate_response (H:=scripted) "fin" "score" (Some "s1") after_words))
    = (history "s1" after_words ++ [Turn user "fin"])%list.
Proof.
  split; [|split; [|split; [|split]]].
  - apply (reachable_generate (H:=scripted)), reachable_init.
  - vm_compute. reflexivity.
  - vm_compute. apply elem_of_cons. right. apply elem_of_cons. by left.
  - vm_compute. reflexivity.
  - vm_compute. reflexivity.
Qed.

(** C1 (amended): in score mode, for a message whose lower-cased form is a
    terminal phrase and a session for which [_generate_final_score] returns,
    [generate_response] appends the user turn and then exactly one assistant
    turn, the report, returns the report with the session identifier, sends
    nothing to the model and leaves the records of the session as they
    were, however many they are.  [_generate_final_score] returns for every
    session whose records are all well formed (fallback records, and dicts
    whose criteria are integers between 0 and 20). *)
Theorem terminal_phrase_report `{Runtime} (message : string) (session_id : option string)
    (s : state) :
  coherent s ->
  str_lower message ∈ terminal_phrases ->
  let sid := session_of session_id s in
  let out := generate_response message "score" session_id s in
  (forall final,
      snd (_generate_final_score sid s) = Ok final ->
      snd out = Ok (Response final sid)
      ∧ history sid (fst out)
        = (history sid s ++ [Turn user message; Turn assistant final])%list
      ∧ sent (fst out) = sent s
      ∧ records sid (fst out) = records sid s)
  ∧ (forallb well_formed (records sid s) = true ->
     exists final, snd (_generate_final_score sid s) = Ok final).
Proof.
  intros Hco Hterm sid out. subst out sid. split.
  - intros final Hfinal.
    rewrite _generate_final_score_run in Hfinal. cbn [snd] in Hfinal.
    rewrite generate_response_run. cbv zeta.
    rewrite is_score_score, is_terminal_true by done. cbn [andb].
    unfold report_step. rewrite records_opened, Hfinal by done. cbn [fst snd].
    split; [reflexivity|]. split; [|split].
    + by rewrite history_with_turn, history_opened, <- app_assoc.
    + apply sent_opened.
    + by apply records_opened.
  - intros Hwf. rewrite _generate_final_score_run. cbn [snd].
    by apply final_report_returns.
Qed.

Lemma terminal_phrase_report_witness :
  snd (generate_response (H:=scripted) "Fin" "score" (Some "s1") two_tens)
    = Ok (Response (report "50.0") "s1")
  ∧ history "s1" (fst (generate_response (H:=scripted) "Fin" "score" (Some "s1") two_tens))
    = [Turn user "Fin"; Turn assistant (report "50.0")]
  ∧ exists final, snd (_generate_final_score (H:=scripted) "s1" mixed) = Ok final.
Proof.
  assert (forall evs, coherent (State {[ "s1" := [] ]} {[ "s1" := evs ]} [] 0)) as Hco.
  { intros evs k. cbn [sessions evaluations].
    destruct (decide ("s1" = k)) as [<-|Hne].
    - rewrite !lookup_singleton_eq. split; discriminate.
    - by rewrite !lookup_singleton_ne. }
  assert (lower_ascii "Fin" ∈ terminal_phrases) as Hterm.
  { vm_compute. apply elem_of_cons. right. apply elem_of_cons. by left. }
  destruct (terminal_phrase_report (H:=scripted) "Fin" (Some "s1") two_tens (Hco _) Hterm)
    as (Hreport & _).
  destruct (terminal_phrase_report (H:=scripted) "Fin" (Some "s1") mixed (Hco _) Hterm)
    as (_ & Hreturns).
  destruct (Hreport (report "50.0")) as (Hret & Hhist & _).
  - vm_compute. reflexivity.
  - split; [exact Hret|]. split; [exact Hhist|]. apply Hreturns. reflexivity.
Defined.

(** ** Failures of the model *)

(** C3 as stated does not hold: when the call that fails is the one made to
    evaluate the argument, the error of the model reaches the caller as it
    is, not as the wrapped error of the generation. *)
Lemma evaluation_failure_not_wrapped :
  generate_content (Runtime:=scripted) (sent init) (evaluation_prompt "PANNE-ANALYSE")
    = inl "quota"
  ∧ snd (generate_response (H:=scripted) "PANNE-ANALYSE" "score" (Some "s1") init)
    = Raise (ExternalError "quota")
  ∧ snd (generate_response (H:=scripted) "PANNE-ANALYSE" "score" (Some "s1") init)
    ≠ Raise (PyException ("Erreur génération IA : " +:+ "quota")).
Proof.
  split; [|split].
  - vm_compute. reflexivity.
  - vm_compute. reflexivity.
  - vm_compute. discriminate.
Qed.

Lemma sent_with_sent (prompt : string) (s : state) :
  sent (with_sent prompt s) = (sent s ++ [prompt])%list.
Proof. reflexivity. Qed.

Lemma no_prompt (l earlier : list string) (prompt : string) :
  l ≠ (l ++ earlier ++ [prompt])%list.
Proof.
  intros Heq. apply (f_equal length) in Heq.
  rewrite !length_app in Heq. cbn [length] in Heq. lia.
Qed.

(** C3 (amended): when a call to the model raises during [generate_response],
    the invocation raises and the user turn of the incoming message stays in
    the history of the session. The error is the single wrapped exception
    "Erreur génération IA : ..." when the failing call is the one that asks
    for the response; it is the error of the model itself when the failing
    call is the one that evaluates the argument (score mode, message not a
    terminal phrase, first call of the invocation).  The failing call is the
    last prompt sent. *)
Theorem model_failure `{Runtime} (message mode : string) (session_id : option string)
    (s : state) (earlier : list string) (prompt msg : string) :
  let sid := session_of session_id s in
  let out := generate_response message mode session_id s in
  sent (fst out) = (sent s ++ earlier ++ [prompt])%list ->
  generate_content (sent s ++ earlier)%list prompt = inl msg ->
  snd out
    = Raise (if is_score mode && negb (is_terminal message) && bool_decide (earlier = [])
             then ExternalError msg
             else PyException ("Erreur génération IA : " +:+ msg))
  ∧ history sid (fst out) = (history sid s ++ [Turn user message])%list.
Proof.
  intros sid out. subst out sid. rewrite generate_response_run. cbv zeta.
  pose proof (history_opened session_id message s) as Hhist.
  pose proof (sent_opened session_id message s) as Hsent.
  set (sid := session_of session_id s) in *.
  set (s1 := opened session_id message s) in *. clearbody s1.
  assert (forall s2 earlier',
             sent s2 = (sent s ++ earlier')%list ->
             history sid s2 = (history sid s ++ [Turn user message])%list ->
             sent (fst (reply_step message mode sid s2)) = (sent s ++ earlier ++ [prompt])%list ->
             generate_content (sent s ++ earlier)%list prompt = inl msg ->
             earlier = earlier'
             ∧ snd (reply_step message mode sid s2)
               = Raise (PyException ("Erreur génération IA : " +:+ msg))
             ∧ history sid (fst (reply_step message mode sid s2))
               = (history sid s ++ [Turn user message])%list) as Hreply.
  { intros s2 earlier' Hsent2 Hhist2. unfold reply_step.
    destruct (generate_content (sent s2) (reply_prompt message mode sid s2)) as [m|t] eqn:Hg;
      cbn [fst snd sent with_turn set_sessions]; rewrite sent_with_sent, Hsent2, <- app_assoc;
      intros Hlog Hfail; apply app_inv_head, app_inj_tail in Hlog as [-> <-];
      rewrite <- Hsent2, Hg in Hfail; [|discriminate].
    inversion Hfail. done. }
  destruct (is_score mode); cbn [andb].
  - destruct (is_terminal message); cbn [negb andb].
    + unfold report_step. intros Hlog. exfalso.
      destruct (final_report (records sid s1));
        cbn [fst sent with_turn set_sessions] in Hlog;
        rewrite Hsent in Hlog; by apply no_prompt in Hlog.
    + unfold evaluation_step. rewrite Hsent.
      destruct (generate_content (sent s) (evaluation_prompt message)) as [m|t] eqn:Hg.
      * cbn [fst snd]. rewrite sent_with_sent, Hsent. intros Hlog Hfail.
        apply app_inv_head, (app_inj_tail [] earlier) in Hlog as [<- <-].
        rewrite app_nil_r, Hg in Hfail.
        inversion Hfail. split; [reflexivity | exact Hhist].
      * destruct (evaluations s1 !! sid) eqn:He.
        -- intros Hlog Hfail.
           assert (sent (with_record sid (parsed_record t)
                           (with_sent (evaluation_prompt message) s1))
                   = (sent s ++ [evaluation_prompt message])%list) as Hsent2.
           { cbn [sent with_record set_evaluations]. by rewrite sent_with_sent, Hsent. }
           destruct (Hreply _ _ Hsent2 Hhist Hlog Hfail) as (-> & Hr & Hh).
           split; [|exact Hh]. rewrite Hr. reflexivity.
        -- cbn [fst snd]. rewrite sent_with_sent, Hsent. intros Hlog Hfail.
           apply app_inv_head, (app_inj_tail [] earlier) in Hlog as [<- <-].
           rewrite app_nil_r, Hg in Hfail. discriminate.
  - intros Hlog Hfail.
    assert (sent s1 = (sent s ++ [])%list) as Hsent2 by (by rewrite app_nil_r).
    destruct (Hreply _ _ Hsent2 Hhist Hlog Hfail) as (-> & Hr & Hh).
    split; [exact Hr | exact Hh].
Qed.

Lemma model_failure_witness :
  (snd (generate_response (H:=scripted) "PANNE-REPONSE" "train" (Some "s1") init)
     = Raise (PyException "Erreur génération IA : quota")
   ∧ history "s1" (fst (generate_response (H:=scripted) "PANNE-REPONSE" "train" (Some "s1") init))
     = [Turn user "PANNE-REPONSE"])
  ∧ (snd (generate_response (H:=scripted) "PANNE-ANALYSE" "score" (Some "s1") init)
     = Raise (ExternalError "quota")
   ∧ history "s1" (fst (generate_response (H:=scripted) "PANNE-ANALYSE" "score" (Some "s1") init))
     = [Turn user "PANNE-ANALYSE"]).
Proof.
  split.
  - apply (model_failure (H:=scripted) "PANNE-REPONSE" "train" (Some "s1") init []
             (reply_prompt "PANNE-REPONSE" "train" "s1"
                (opened (H:=scripted) (Some "s1") "PANNE-REPONSE" init))
             "quota").
    + vm_compute. reflexivity.
    + vm_compute. reflexivity.
  - apply (model_failure (H:=scripted) "PANNE-ANALYSE" "score" (Some "s1") init []
             (evaluation_prompt "PANNE-ANALYSE") "quota").
    + vm_compute. reflexivity.
    + vm_compute. reflexivity.
Defined.

(** ** Modes other than "score" *)

(** C4 as stated does not hold: the mode is written in the prompt, so the
    model can answer a mode it does not know differently from "train", and the
    text returned and recorded is then not the one of "train". *)
Lemma unknown_mode_differs :
  "debate" ≠ "train" ∧ "debate" ≠ "score"
  ∧ snd (generate_response (H:=scripted) "Bonjour" "debate" (Some "s1") init)
    = Ok (Response "Entendu." "s1")
  ∧ snd (generate_response (H:=scripted) "Bonjour" "train" (Some "s1") init)
    = Ok (Response "Entendu (train)." "s1")
  ∧ snd (generate_response (H:=scripted) "Bonjour" "debate" (Some "s1") init)
    ≠ snd (generate_response (H:=scripted) "Bonjour" "train" (Some "s1") init)
  ∧ history "s1" (fst (generate_response (H:=scripted) "Bonjour" "debate" (Some "s1") init))
    ≠ history "s1" (fst (generate_response (H:=scripted) "Bonjour" "train" (Some "s1") init)).
Proof.
  split; [discriminate|]. split; [discriminate|].
  split; [vm_compute; reflexivity|]. split; [vm_compute; reflexivity|].
  split; vm_compute; discriminate.
Qed.

Lemma records_opened_any `{Runtime} (session_id : option string) (message k : string)
    (s : state) :
  coherent s -> records k (opened session_id message s) = records k s.
Proof.
  intros Hco. destruct (decide (session_of session_id s = k)) as [<-|Hne].
  - by apply records_opened.
  - unfold opened, with_turn, records. cbn [evaluations set_sessions].
    destruct (sessions s !! session_of session_id s); cbn [evaluations]; [done|].
    by rewrite lookup_insert_ne.
Qed.

(** C4 (amended): with a mode other than "score", known or not,
    [generate_response] runs the generation path with that mode written in the
    prompt: one prompt is sent, no evaluation record is appended, no report is
    made, and the result is the reply of the model, or the wrapped error.
    When the model gives for that prompt the outcome it gives for the prompt
    of "train", the value returned and the resulting sessions and evaluations
    are those of the same call with mode "train". *)
Theorem other_mode_like_train `{Runtime} (message mode : string) (session_id : option string)
    (s : state) :
  mode ≠ "score" ->
  coherent s ->
  let sid := session_of session_id s in
  let context := render_lines (last_n 10 (history sid s ++ [Turn user message])%list) in
  let out := generate_response message mode session_id s in
  let train := generate_response message "train" session_id s in
  sent (fst out) = (sent s ++ [full_prompt mode context message])%list
  ∧ (forall k, records k (fst out) = records k s)
  ∧ snd out
    = match generate_content (sent s) (full_prompt mode context message) with
      | inl msg => Raise (PyException ("Erreur génération IA : " +:+ msg))
      | inr response_text => Ok (Response response_text sid)
      end
  ∧ (generate_content (sent s) (full_prompt mode context message)
     = generate_content (sent s) (full_prompt "train" context message) ->
     snd out = snd train
     ∧ sessions (fst out) = sessions (fst train)
     ∧ evaluations (fst out) = evaluations (fst train)
     ∧ draws (fst out) = draws (fst train)).
Proof.
  intros Hmode Hco sid context out train. subst out train context sid.
  rewrite !generate_response_run. cbv zeta.
  rewrite (is_score_other mode Hmode), (is_score_other "train") by discriminate.
  cbn [andb]. unfold reply_step, reply_prompt.
  rewrite !history_opened, !sent_opened.
  set (sid := session_of session_id s).
  set (context := render_lines (last_n 10 (history sid s ++ [Turn user message])%list)).
  split; [|split; [|split]].
  - destruct (generate_content (sent s) (full_prompt mode context message));
      cbn [fst sent with_turn set_sessions]; by rewrite sent_with_sent, sent_opened.
  - intros k.
    destruct (generate_content (sent s) (full_prompt mode context message)); cbn [fst];
      apply (records_opened_any session_id message k s Hco).
  - by destruct (generate_content (sent s) (full_prompt mode context message)).
  - intros ->.
    by destruct (generate_content (sent s) (full_prompt "train" context message)).
Qed.

Lemma other_mode_like_train_witness :
  snd (generate_response (H:=scripted) "PANNE-REPONSE" "debate" (Some "s1") init)
    = snd (generate_response (H:=scripted) "PANNE-REPONSE" "train" (Some "s1") init)
  ∧ sessions (fst (generate_response (H:=scripted) "PANNE-REPONSE" "debate" (Some "s1") init))
    = sessions (fst (generate_response (H:=scripted) "PANNE-REPONSE" "train" (Some "s1") init)).
Proof.
  assert ("debate" ≠ "score") as Hmode by discriminate.
  destruct (other_mode_like_train (H:=scripted) "PANNE-REPONSE" "debate" (Some "s1") init
              Hmode coherent_init) as (_ & _ & _ & Hsame).
  destruct Hsame as (Hret & Hsessions & _).
  - vm_compute. reflexivity.
  - split; [exact Hret | exact Hsessions].
Defined.

(** ** Scored messages *)

(** C5: in score mode, for a message that is not a terminal phrase whose
    evaluation call returns, one call of [generate_response] does both
    things: exactly one record (the parsed evaluation, or its fallback) is
    appended to the evaluations of the session, and the model is then asked
    for a response with the full prompt; the text of that response is appended
    as an assistant turn and returned. *)
Theorem score_evaluates_and_replies `{Runtime} (message : string)
    (session_id : option string) (s : state) (analysis : string) :
  coherent s ->
  str_lower message ∉ terminal_phrases ->
  generate_content (sent s) (evaluation_prompt message) = inr analysis ->
  let sid := session_of session_id s in
  let context := render_lines (last_n 10 (history sid s ++ [Turn user message])%list) in
  let prompt := full_prompt "score" context message in
  let out := generate_response message "score" session_id s in
  records sid (fst out) = (records sid s ++ [parsed_record analysis])%list
  ∧ sent (fst out) = (sent s ++ [evaluation_prompt message; prompt])%list
  ∧ (forall response_text,
        generate_content (sent s ++ [evaluation_prompt message])%list prompt
          = inr response_text ->
        snd out = Ok (Response response_text sid)
        ∧ history sid (fst out)
          = (history sid s ++ [Turn user message; Turn assistant response_text])%list).
Proof.
  intros Hco Hterm Heval sid context prompt out. subst out prompt context sid.
  rewrite generate_response_run. cbv zeta.
  rewrite is_score_score, is_terminal_false by done. cbn [andb].
  unfold evaluation_step. rewrite sent_opened, Heval.
  destruct (evaluations_opened session_id message s Hco) as [evs Hevs]. rewrite Hevs.
  unfold reply_step, reply_prompt.
  set (sid := session_of session_id s).
  set (s2 := with_record sid (parsed_record analysis)
               (with_sent (evaluation_prompt message) (opened session_id message s))).
  assert (history sid s2 = (history sid s ++ [Turn user message])%list) as Hhist
      by apply history_opened.
  assert (sent s2 = (sent s ++ [evaluation_prompt message])%list) as Hsent.
  { subst s2. cbn [sent with_record set_evaluations]. by rewrite sent_with_sent, sent_opened. }
  assert (records sid s2 = (records sid s ++ [parsed_record analysis])%list) as Hrec.
  { subst s2. rewrite records_with_record. f_equal.
    apply (records_opened session_id message s Hco). }
  rewrite Hhist, Hsent.
  set (prompt := full_prompt "score" _ message).
  split; [|split].
  - by destruct (generate_content (sent s ++ [evaluation_prompt message])%list prompt).
  - destruct (generate_content (sent s ++ [evaluation_prompt message])%list prompt);
      cbn [fst sent with_turn set_sessions]; by rewrite sent_with_sent, Hsent, <- app_assoc.
  - intros response_text ->. cbn [fst snd]. split; [reflexivity|].
    rewrite history_with_turn.
    change (history sid (with_sent prompt s2)) with (history sid s2).
    by rewrite Hhist, <- app_assoc.
Qed.

Lemma score_evaluates_and_replies_witness :
  records "s1" (fst (generate_response (H:=scripted) "dix partout" "score" (Some "s1") two_tens))
    = [tens_record; tens_record; tens_record]
  ∧ snd (generate_response (H:=scripted) "dix partout" "score" (Some "s1") two_tens)
    = Ok (Response "Entendu." "s1")
  ∧ history "s1" (fst (generate_response (H:=scripted) "dix partout" "score" (Some "s1") two_tens))
    = [Turn user "dix partout"; Turn assistant "Entendu."].
Proof.
  assert (coherent two_tens) as Hco.
  { intros k. unfold two_tens. cbn [sessions evaluations].
    destruct (decide ("s1" = k)) as [<-|Hne].
    - vm_compute. split; discriminate.
    - by rewrite !lookup_singleton_ne. }
  assert (lower_ascii "dix partout" ∉ terminal_phrases) as Hterm.
  { vm_compute. intros Hin.
    repeat (apply elem_of_cons in Hin as [Hin|Hin]; [discriminate Hin|]).
    by apply elem_of_nil in Hin. }
  destruct (score_evaluates_and_replies (H:=scripted) "dix partout" (Some "s1") two_tens
              tens_text Hco Hterm eq_refl) as (Hrec & _ & Hreply).
  split; [exact Hrec|].
  apply (Hreply "Entendu."). vm_compute. reflexivity.
Defined.

(** ** Reports leave the records alone *)

Lemma session_of_given `{Runtime} (sid : string) (s : state) :
  sid ≠ EmptyString -> session_of (Some sid) s = sid.
Proof. intros Hne. unfold session_of. by rewrite bool_decide_eq_false_2. Qed.

Lemma report_step_result `{Runtime} (sid : string) (s : state) :
  snd (report_step sid s)
  = match final_report (records sid s) with
    | Ok final => Ok (Response final sid)
    | Raise e => Raise e
    end.
Proof. unfold report_step. by destruct (final_report (records sid s)). Qed.

Lemma report_step_records `{Runtime} (sid k : string) (s : state) :
  records k (fst (report_step sid s)) = records k s.
Proof. unfold report_step. by destruct (final_report (records sid s)). Qed.

(** C10: [_generate_final_score] leaves the state as it is. In score mode, a
    terminal phrase sent twice in a row to the same session gives the same
    outcome twice (the same report with the same score, or the same error),
    and the records of every session are after the two calls what they were
    before. *)
Theorem report_twice `{Runtime} (first second sid : string) (s : state) :
  coherent s ->
  sid ≠ EmptyString ->
  str_lower first ∈ terminal_phrases ->
  str_lower second ∈ terminal_phrases ->
  let once := generate_response first "score" (Some sid) s in
  let twice := generate_response second "score" (Some sid) (fst once) in
  fst (_generate_final_score sid s) = s
  ∧ snd twice = snd once
  ∧ (forall k, records k (fst once) = records k s)
  ∧ (forall k, records k (fst twice) = records k s).
Proof.
  intros Hco Hsid Hfirst Hsecond once twice.
  assert (forall k, records k (fst once) = records k s) as Honce.
  { intros k. subst once. rewrite generate_response_run. cbv zeta.
    rewrite is_score_score, is_terminal_true by done. cbn [andb].
    by rewrite report_step_records, records_opened_any. }
  pose proof (generate_response_coherent first "score" (Some sid) s Hco) as Hco1.
  fold once in Hco1.
  split; [by rewrite _generate_final_score_run|].
  split; [|split; [exact Honce|]].
  - subst twice. rewrite generate_response_run. cbv zeta.
    rewrite is_score_score, is_terminal_true by done. cbn [andb].
    rewrite report_step_result, records_opened_any by done.
    rewrite !session_of_given by done. rewrite Honce.
    subst once. rewrite generate_response_run. cbv zeta.
    rewrite is_score_score, is_terminal_true by done. cbn [andb].
    rewrite report_step_result, records_opened_any by done.
    by rewrite !session_of_given by done.
  - intros k. subst twice. rewrite generate_response_run. cbv zeta.
    rewrite is_score_score, is_terminal_true by done. cbn [andb].
    by rewrite report_step_records, records_opened_any, Honce.
Qed.

Lemma report_twice_witness :
  snd (generate_response (H:=scripted) "score" "score" (Some "s1")
         (fst (generate_response (H:=scripted) "FIN" "score" (Some "s1") two_tens)))
    = Ok (Response (report "50.0") "s1")
  ∧ records "s1"
      (fst (generate_response (H:=scripted) "score" "score" (Some "s1")
              (fst (generate_response (H:=scripted) "FIN" "score" (Some "s1") two_tens))))
    = [tens_record; tens_record].
Proof.
  assert (coherent two_tens) as Hco.
  { intros k. unfold two_tens. cbn [sessions evaluations].
    destruct (decide ("s1" = k)) as [<-|Hne].
    - vm_compute. split; discriminate.
    - by rewrite !lookup_singleton_ne. }
  assert ("s1" ≠ EmptyString) as Hsid by discriminate.
  assert (lower_ascii "FIN" ∈ terminal_phrases) as Hfirst.
  { vm_compute. apply elem_of_cons. right. apply elem_of_cons. by left. }
  assert (lower_ascii "score" ∈ terminal_phrases) as Hsecond.
  { vm_compute. do 2 (apply elem_of_cons; right). apply elem_of_cons. by left. }
  destruct (report_twice (H:=scripted) "FIN" "score" "s1" two_tens Hco Hsid Hfirst Hsecond)
    as (_ & Hsame & _ & Hrec).
  split.
  - rewrite Hsame. vm_compute. reflexivity.
  - exact (Hrec "s1").
Defined.

(** ** Clearing a session *)

Lemma agree_history (sid : string) (a b : state) :
  agree sid a b -> history sid a = history sid b.
Proof. intros (Hs & _ & _). unfold history. by rewrite Hs. Qed.

Lemma agree_records (sid : string) (a b : state) :
  agree sid a b -> records sid a = records sid b.
Proof. intros (_ & He & _). unfold records. by rewrite He. Qed.

Lemma agree_with_turn (sid : string) (t : turn) (a b : state) :
  agree sid a b -> agree sid (with_turn sid t a) (with_turn sid t b).
Proof.
  intros Hab. pose proof (agree_history _ _ _ Hab) as Hh. destruct Hab as (Hs & He & Hp).
  unfold agree, with_turn. cbn [sessions evaluations sent set_sessions].
  by rewrite !lookup_insert_eq, Hh.
Qed.

Lemma agree_with_sent (sid prompt : string) (a b : state) :
  agree sid a b -> agree sid (with_sent prompt a) (with_sent prompt b).
Proof.
  intros (Hs & He & Hp). unfold agree, with_sent. cbn [sessions evaluations sent].
  by rewrite Hp.
Qed.

Lemma agree_with_record (sid : string) (ev : value) (a b : state) :
  agree sid a b -> agree sid (with_record sid ev a) (with_record sid ev b).
Proof.
  intros Hab. pose proof (agree_records _ _ _ Hab) as Hr. destruct Hab as (Hs & He & Hp).
  unfold agree, with_record. cbn [sessions evaluations sent set_evaluations].
  by rewrite !lookup_insert_eq, Hr.
Qed.

Lemma agree_opened `{Runtime} (sid message : string) (a b : state) :
  sid ≠ EmptyString ->
  agree sid a b -> agree sid (opened (Some sid) message a) (opened (Some sid) message b).
Proof.
  intros Hsid (Hs & He & Hp). unfold opened. rewrite !session_of_given by done.
  apply agree_with_turn. rewrite Hs.
  destruct (sessions b !! sid) eqn:Hb; unfold agree; cbn [sessions evaluations sent].
  - by rewrite Hs, Hb.
  - by rewrite !lookup_insert_eq.
Qed.

Lemma agree_reply_step `{Runtime} (message mode sid : string) (a b : state) :
  agree sid a b ->
  snd (reply_step message mode sid a) = snd (reply_step message mode sid b)
  ∧ agree sid (fst (reply_step message mode sid a)) (fst (reply_step message mode sid b)).
Proof.
  intros Hab. unfold reply_step, reply_prompt.
  rewrite (agree_history _ _ _ Hab). destruct Hab as (Hs & He & Hp). rewrite Hp.
  destruct (generate_content (sent b) _); cbn [fst snd]; (split; [reflexivity|]).
  - by apply agree_with_sent.
  - by apply agree_with_turn, agree_with_sent.
Qed.

(** What [generate_response] returns, and what it leaves under the identifier
    it was given, depend on the state only through what the state holds for
    that identifier and through the exchanges with the model so far. *)
Lemma generate_response_local `{Runtime} (message mode sid : string) (a b : state) :
  sid ≠ EmptyString ->
  agree sid a b ->
  snd (generate_response message mode (Some sid) a)
  = snd (generate_response message mode (Some sid) b)
  ∧ agree sid (fst (generate_response message mode (Some sid) a))
              (fst (generate_response message mode (Some sid) b)).
Proof.
  intros Hsid Hab. rewrite !generate_response_run. cbv zeta.
  rewrite !session_of_given by done.
  pose proof (agree_opened sid message a b Hsid Hab) as Hop.
  set (a1 := opened (Some sid) message a) in *.
  set (b1 := opened (Some sid) message b) in *. clearbody a1 b1.
  destruct (is_score mode); cbn [andb]; [|by apply agree_reply_step].
  destruct (is_terminal message).
  - unfold report_step. rewrite (agree_records _ _ _ Hop).
    destruct (final_report (records sid b1)); cbn [fst snd]; (split; [reflexivity|]).
    + by apply agree_with_turn.
    + exact Hop.
  - unfold evaluation_step. pose proof Hop as (Hs & He & Hp). rewrite Hp, He.
    clear Hs He Hp.
    destruct (generate_content (sent b1) (evaluation_prompt message)); cbn [fst snd].
    + split; [reflexivity|]. by apply agree_with_sent.
    + destruct (evaluations b1 !! sid); cbn [fst snd].
      * by apply agree_reply_step, agree_with_record, agree_with_sent.
      * split; [reflexivity|]. by apply agree_with_sent.
Qed.

Lemma generate_response_first_turn `{Runtime} (message mode sid : string) (s : state) :
  sid ≠ EmptyString ->
  exists rest,
    history sid (fst (generate_response message mode (Some sid) s))
    = (history sid s ++ Turn user message :: rest)%list.
Proof.
  intros Hsid. rewrite generate_response_run. cbv zeta.
  pose proof (history_opened (Some sid) message s) as Hh.
  rewrite !session_of_given in * by done.
  set (s1 := opened (Some sid) message s) in *. clearbody s1.
  assert (forall s2, history sid s2 = (history sid s ++ [Turn user message])%list ->
            exists rest, history sid (fst (reply_step message mode sid s2))
                         = (history sid s ++ Turn user message :: rest)%list) as Hreply.
  { intros s2 Hh2. unfold reply_step.
    destruct (generate_content (sent s2) _) as [msg|t]; cbn [fst].
    - exists []. exact Hh2.
    - exists [Turn assistant t]. rewrite history_with_turn.
      change (history sid (with_sent (reply_prompt message mode sid s2) s2))
        with (history sid s2).
      by rewrite Hh2, <- app_assoc. }
  destruct (is_score mode); cbn [andb]; [|by apply Hreply].
  destruct (is_terminal message).
  - unfold report_step. destruct (final_report (records sid s1)) as [final|e]; cbn [fst].
    + exists [Turn assistant final]. by rewrite history_with_turn, Hh, <- app_assoc.
    + exists []. exact Hh.
  - unfold evaluation_step.
    destruct (generate_content (sent s1) (evaluation_prompt message)); cbn [fst].
    + exists []. exact Hh.
    + destruct (evaluations s1 !! sid); cbn [fst].
      * apply Hreply. exact Hh.
      * exists []. exact Hh.
Qed.

(** C9: [clear_session] returns without error whether the identifier is known
    or not, removes the turn list and the evaluation list of the identifier
    and nothing else, and changes nothing when the identifier is unknown.
    Afterwards the identifier is as one never seen: the context of the session
    is empty, there is nothing to evaluate, and a call of [generate_response]
    with that identifier returns what it returns, and leaves under the
    identifier what it leaves, from any state that never saw the identifier
    (and saw the same exchanges with the model); the history then starts with
    the new user turn. *)
Theorem clear_session_forgets `{Runtime} (sid : string) (s : state) :
  let cleared := fst (clear_session sid s) in
  snd (clear_session sid s) = Ok tt
  ∧ sessions cleared !! sid = None
  ∧ evaluations cleared !! sid = None
  ∧ (forall k, k ≠ sid ->
       sessions cleared !! k = sessions s !! k
       ∧ evaluations cleared !! k = evaluations s !! k)
  ∧ sent cleared = sent s
  ∧ draws cleared = draws s
  ∧ (sessions s !! sid = None -> evaluations s !! sid = None -> cleared = s)
  ∧ _build_context sid cleared = (cleared, Ok EmptyString)
  ∧ _generate_final_score sid cleared = (cleared, Ok no_argument)
  ∧ (forall message mode never_seen,
       sid ≠ EmptyString ->
       sessions never_seen !! sid = None ->
       evaluations never_seen !! sid = None ->
       sent never_seen = sent s ->
       let out := generate_response message mode (Some sid) cleared in
       let fresh := generate_response message mode (Some sid) never_seen in
       snd out = snd fresh
       ∧ sessions (fst out) !! sid = sessions (fst fresh) !! sid
       ∧ evaluations (fst out) !! sid = evaluations (fst fresh) !! sid
       ∧ exists rest, history sid (fst out) = Turn user message :: rest).
Proof.
  intros cleared. subst cleared. rewrite clear_session_run. cbn [fst snd].
  set (cleared := State (delete sid (sessions s)) (delete sid (evaluations s))
                        (sent s) (draws s)).
  assert (sessions cleared !! sid = None) as Hs by apply lookup_delete_eq.
  assert (evaluations cleared !! sid = None) as He by apply lookup_delete_eq.
  split; [reflexivity|]. split; [exact Hs|]. split; [exact He|].
  split; [|split; [reflexivity|split; [reflexivity|split; [|split; [|split]]]]].
  - intros k Hk. subst cleared. cbn [sessions evaluations].
    by rewrite !lookup_delete_ne.
  - intros Hns Hne. subst cleared. rewrite !delete_id by done. by destruct s.
  - rewrite _build_context_run. unfold history. by rewrite Hs.
  - rewrite _generate_final_score_run. unfold records. by rewrite He.
  - intros message mode never_seen Hsid Hns Hne Hsent.
    assert (agree sid cleared never_seen) as Hag.
    { unfold agree. by rewrite Hs, He, Hns, Hne, Hsent. }
    destruct (generate_response_local message mode sid _ _ Hsid Hag) as (Hr & Hs' & He' & _).
    split; [exact Hr|]. split; [exact Hs'|]. split; [exact He'|].
    destruct (generate_response_first_turn message mode sid cleared Hsid) as [rest Hrest].
    exists rest. rewrite Hrest. unfold history. by rewrite Hs.
Qed.

Lemma clear_session_forgets_witness :
  snd (generate_response (H:=scripted) "Bonjour" "train" (Some "s1")
         (fst (clear_session "s1" two_sessions)))
    = snd (generate_response (H:=scripted) "Bonjour" "train" (Some "s1") init)
  ∧ fst (clear_session "s3" two_sessions) = two_sessions.
Proof.
  pose proof (clear_session_forgets (H:=scripted) "s1" two_sessions)
    as (_ & _ & _ & _ & _ & _ & _ & _ & _ & Hfresh).
  pose proof (clear_session_forgets (H:=scripted) "s3" two_sessions)
    as (_ & _ & _ & _ & _ & _ & Hsame & _).
  split.
  - apply (Hfresh "Bonjour" "train" init); [discriminate | reflexivity..].
  - apply Hsame; reflexivity.
Defined.

(** * Further properties of the service *)

(** ** The stores keep the same identifiers *)

Lemma coherent_dom (s : state) :
  coherent s <-> dom (sessions s) = dom (evaluations s).
Proof.
  unfold coherent. split.
  - intros Hco. apply set_eq. intros k.
    rewrite !elem_of_dom, <- !not_eq_None_Some. by rewrite (Hco k).
  - intros Hdom k. rewrite <- !not_elem_of_dom. by rewrite Hdom.
Qed.

Lemma after_calls_coherent `{Runtime} (cs : list call) (s : state) :
  coherent s -> coherent (after_calls cs s).
Proof.
  revert s. induction cs as [|c cs IH]; intros s Hco; [done|].
  apply IH. destruct c; cbn [after_call].
  - by apply generate_response_coherent.
  - by apply clear_session_coherent.
Qed.

(** X1: a service built by [__init__] keeps, after any sequence of calls of
    [generate_response] and [clear_session] (returning or raising), the same
    identifiers in [sessions] and in [evaluations]: the two entries of a
    session are created together and removed together. *)
Theorem stores_share_identifiers `{Runtime} (api_key : string) (s0 : state) (cs : list call) :
  __init__ api_key = Constructed s0 ->
  dom (sessions (after_calls cs s0)) = dom (evaluations (after_calls cs s0)).
Proof.
  unfold __init__. destruct (bool_decide (api_key = EmptyString)); [discriminate|].
  intros [= <-]. apply coherent_dom, after_calls_coherent, coherent_init.
Qed.

Lemma stores_share_identifiers_witness :
  dom (sessions (after_calls (H:=scripted)
                   [Generate "dix partout" "score" None; Generate "PANNE-ANALYSE" "score" (Some "s2");
                    Generate "fin" "score" (Some "s3"); Clear "s2"] init))
  = dom (evaluations (after_calls (H:=scripted)
                   [Generate "dix partout" "score" None; Generate "PANNE-ANALYSE" "score" (Some "s2");
                    Generate "fin" "score" (Some "s3"); Clear "s2"] init)).
Proof.
  apply (stores_share_identifiers (H:=scripted) "clef" init). reflexivity.
Defined.

(** ** What a call of [generate_response] changes *)

Lemma same_elsewhere_refl (sid : string) (a : state) : same_elsewhere sid a a.
Proof. by intros k Hk. Qed.

Lemma same_elsewhere_trans (sid : string) (a b c : state) :
  same_elsewhere sid a b -> same_elsewhere sid b c -> same_elsewhere sid a c.
Proof.
  intros Hab Hbc k Hk. destruct (Hab k Hk) as [-> ->]. by apply Hbc.
Qed.

Lemma same_elsewhere_with_turn (sid : string) (t : turn) (s : state) :
  same_elsewhere sid (with_turn sid t s) s.
Proof.
  intros k Hk. unfold with_turn. cbn [sessions evaluations set_sessions].
  by rewrite lookup_insert_ne.
Qed.

Lemma same_elsewhere_with_record (sid : string) (ev : value) (s : state) :
  same_elsewhere sid (with_record sid ev s) s.
Proof.
  intros k Hk. unfold with_record. cbn [sessions evaluations set_evaluations].
  by rewrite lookup_insert_ne.
Qed.

Lemma same_elsewhere_opened `{Runtime} (session_id : option string) (message : string)
    (s : state) :
  same_elsewhere (session_of session_id s) (opened session_id message s) s.
Proof.
  unfold opened.
  eapply same_elsewhere_trans; [apply same_elsewhere_with_turn|].
  intros k Hk. destruct (sessions s !! session_of session_id s); cbn [sessions evaluations].
  - done.
  - by rewrite !lookup_insert_ne.
Qed.

Lemma same_elsewhere_reply_step `{Runtime} (message mode sid : string) (s : state) :
  same_elsewhere sid (fst (reply_step message mode sid s)) s.
Proof.
  unfold reply_step. destruct (generate_content (sent s) _); cbn [fst].
  - by intros k Hk.
  - eapply same_elsewhere_trans; [apply same_elsewhere_with_turn|]. by intros k Hk.
Qed.

Lemma generate_response_elsewhere `{Runtime} (message mode : string)
    (session_id : option string) (s : state) :
  same_elsewhere (session_of session_id s)
    (fst (generate_response message mode session_id s)) s.
Proof.
  rewrite generate_response_run. cbv zeta.
  pose proof (same_elsewhere_opened session_id message s) as Hop.
  set (sid := session_of session_id s) in *.
  set (s1 := opened session_id message s) in *. clearbody s1.
  destruct (is_score mode); cbn [andb].
  - destruct (is_terminal message).
    + unfold report_step. destruct (final_report (records sid s1)); cbn [fst]; [|done].
      eapply same_elsewhere_trans; [apply same_elsewhere_with_turn | exact Hop].
    + unfold evaluation_step.
      destruct (generate_content (sent s1) (evaluation_prompt message)); cbn [fst];
        [exact Hop|].
      destruct (evaluations s1 !! sid); cbn [fst]; [|exact Hop].
      eapply same_elsewhere_trans; [apply same_elsewhere_reply_step|].
      eapply same_elsewhere_trans; [apply same_elsewhere_with_record | exact Hop].
  - eapply same_elsewhere_trans; [apply same_elsewhere_reply_step | exact Hop].
Qed.

(** X2: a call of [generate_response] reads and writes one session only: the
    turn list and the evaluation list of every other identifier are after the
    call what they were before, whether the call returns or raises. *)
Theorem other_sessions_untouched `{Runtime} (message mode : string)
    (session_id : option string) (s : state) (k : string) :
  k ≠ session_of session_id s ->
  sessions (fst (generate_response message mode session_id s)) !! k = sessions s !! k
  ∧ evaluations (fst (generate_response message mode session_id s)) !! k
    = evaluations s !! k.
Proof. intros Hk. by apply generate_response_elsewhere. Qed.

Lemma other_sessions_untouched_witness :
  sessions (fst (generate_response (H:=scripted) "dix partout" "score" (Some "s1") two_sessions))
    !! "s2" = Some [Turn user "c"]
  ∧ evaluations (fst (generate_response (H:=scripted) "dix partout" "score" (Some "s1") two_sessions))
    !! "s2" = Some [].
Proof.
  apply (other_sessions_untouched (H:=scripted) "dix partout" "score" (Some "s1")
           two_sessions "s2").
  discriminate.
Defined.

(** The history of the session after the call, by outcome. *)
Lemma generate_response_history `{Runtime} (message mode : string)
    (given : option string) (s : state) :
  let sid := session_of given s in
  let out := generate_response message mode given s in
  match snd out with
  | Ok r =>
    session_id r = sid
    ∧ history sid (fst out)
      = (history sid s ++ [Turn user message; Turn assistant (text r)])%list
  | Raise _ => history sid (fst out) = (history sid s ++ [Turn user message])%list
  end.
Proof.
  cbv zeta. rewrite generate_response_run. cbv zeta.
  pose proof (history_opened given message s) as Hh.
  set (sid := session_of given s) in *.
  set (s1 := opened given message s) in *. clearbody s1.
  assert (forall s2, history sid s2 = (history sid s ++ [Turn user message])%list ->
            match snd (reply_step message mode sid s2) with
            | Ok r =>
              session_id r = sid
              ∧ history sid (fst (reply_step message mode sid s2))
                = (history sid s ++ [Turn user message; Turn assistant (text r)])%list
            | Raise _ =>
              history sid (fst (reply_step message mode sid s2))
              = (history sid s ++ [Turn user message])%list
            end) as Hreply.
  { intros s2 Hh2. unfold reply_step.
    destruct (generate_content (sent s2) _) as [msg|t]; cbn [fst snd text session_id].
    - exact Hh2.
    - split; [reflexivity|]. rewrite history_with_turn.
      change (history sid (with_sent (reply_prompt message mode sid s2) s2))
        with (history sid s2).
      by rewrite Hh2, <- app_assoc. }
  destruct (is_score mode); cbn [andb]; [|by apply Hreply].
  destruct (is_terminal message).
  - unfold report_step. destruct (final_report (records sid s1)) as [final|e];
      cbn [fst snd text session_id].
    + split; [reflexivity|]. by rewrite history_with_turn, Hh, <- app_assoc.
    + exact Hh.
  - unfold evaluation_step.
    destruct (generate_content (sent s1) (evaluation_prompt message)); cbn [fst snd];
      [exact Hh|].
    destruct (evaluations s1 !! sid); cbn [fst snd]; [|exact Hh].
    apply Hreply. exact Hh.
Qed.

(** X3: a call of [generate_response] only appends to the history of its
    session. When it returns, the history has grown by the user turn of the
    message followed by one assistant turn whose content is the text returned,
    and the identifier returned is the one the turns were recorded under (the
    one given, or the one drawn when none or an empty one was given). When it
    raises, the history has grown by the user turn alone. *)
Theorem history_grows_by_one_exchange `{Runtime} (message mode : string)
    (given : option string) (s : state) :
  let sid := session_of given s in
  let out := generate_response message mode given s in
  (forall r, snd out = Ok r ->
     session_id r = sid
     ∧ history sid (fst out)
       = (history sid s ++ [Turn user message; Turn assistant (text r)])%list)
  ∧ (forall e, snd out = Raise e ->
       history sid (fst out) = (history sid s ++ [Turn user message])%list).
Proof.
  intros sid out. pose proof (generate_response_history message mode given s) as Hh.
  cbv zeta in Hh. fold sid out in Hh.
  split; [intros r Hr | intros e He]; by rewrite ?Hr, ?He in Hh.
Qed.

Lemma history_grows_by_one_exchange_witness :
  history "s1" (fst (generate_response (H:=scripted) "Bonjour" "train" (Some "s1") two_sessions))
    = [Turn user "a"; Turn assistant "b"; Turn user "Bonjour";
       Turn assistant "Entendu (train)."]
  ∧ history "s1"
      (fst (generate_response (H:=scripted) "PANNE-REPONSE" "train" (Some "s1") two_sessions))
    = [Turn user "a"; Turn assistant "b"; Turn user "PANNE-REPONSE"].
Proof.
  destruct (history_grows_by_one_exchange (H:=scripted) "Bonjour" "train" (Some "s1")
              two_sessions) as [Hok _].
  destruct (history_grows_by_one_exchange (H:=scripted) "PANNE-REPONSE" "train" (Some "s1")
              two_sessions) as [_ Hraise].
  split.
  - exact (proj2 (Hok (Response "Entendu (train)." "s1") eq_refl)).
  - exact (Hraise (PyException "Erreur génération IA : quota") eq_refl).
Defined.

(** ** Histories are dialogues *)

Lemma dialogue_history (sid : string) (s : state) : dialogues s -> dialogue (history sid s).
Proof.
  intros Hd. unfold history. destruct (sessions s !! sid) as [h|] eqn:Hs; cbn.
  - by apply (Hd sid).
  - constructor.
Qed.

Lemma history_of_lookup (sid : string) (s : state) (h : list turn) :
  sessions s !! sid = Some h -> history sid s = h.
Proof. intros Hs. unfold history. by rewrite Hs. Qed.

Lemma generate_response_dialogues `{Runtime} (message mode : string)
    (given : option string) (s : state) :
  dialogues s -> dialogues (fst (generate_response message mode given s)).
Proof.
  intros Hd k h Hk.
  destruct (decide (k = session_of given s)) as [->|Hne].
  - apply history_of_lookup in Hk. rewrite <- Hk.
    pose proof (generate_response_history message mode given s) as Hh. cbv zeta in Hh.
    pose proof (dialogue_history (session_of given s) s Hd) as Hold.
    destruct (snd (generate_response message mode given s)) as [r|e].
    + destruct Hh as [_ ->]. by constructor.
    + rewrite Hh. by constructor.
  - destruct (generate_response_elsewhere message mode given s k Hne) as [Hs _].
    rewrite Hs in Hk. by apply (Hd k).
Qed.

Lemma clear_session_dialogues (sid : string) (s : state) :
  dialogues s -> dialogues (fst (clear_session sid s)).
Proof.
  intros Hd k h. rewrite clear_session_run. cbn [fst sessions].
  intros Hk. apply lookup_delete_Some in Hk as [_ Hk]. by apply (Hd k).
Qed.

Lemma after_calls_dialogues `{Runtime} (cs : list call) (s : state) :
  dialogues s -> dialogues (after_calls cs s).
Proof.
  revert s. induction cs as [|c cs IH]; intros s Hd; [done|].
  apply IH. destruct c; cbn [after_call].
  - by apply generate_response_dialogues.
  - by apply clear_session_dialogues.
Qed.

Lemma dialogue_assistant_follows_user (h : list turn) :
  dialogue h ->
  forall (i : nat) (answer : string),
    h !! i = Some (Turn assistant answer) ->
    exists (j : nat) (message : string), i = S j ∧ h !! j = Some (Turn user message).
Proof.
  induction 1 as [|h message Hd IH|h message answer' Hd IH]; intros i answer Hi.
  - by rewrite lookup_nil in Hi.
  - destruct (decide (i < length h)%nat) as [Hlt|Hge].
    + rewrite lookup_app_l in Hi by done.
      destruct (IH i answer Hi) as (j & m & -> & Hj).
      exists j, m. split; [done|]. rewrite lookup_app_l by lia. exact Hj.
    + rewrite lookup_app_r in Hi by lia.
      destruct (i - length h)%nat as [|[|n]]; cbn in Hi; discriminate.
  - destruct (decide (i < length h)%nat) as [Hlt|Hge].
    + rewrite lookup_app_l in Hi by done.
      destruct (IH i answer Hi) as (j & m & -> & Hj).
      exists j, m. split; [done|]. rewrite lookup_app_l by lia. exact Hj.
    + rewrite lookup_app_r in Hi by lia.
      destruct (i - length h)%nat as [|[|n]] eqn:Hd'; cbn in Hi; try discriminate.
      exists (length h), message. split; [lia|].
      rewrite lookup_app_r by lia. by rewrite Nat.sub_diag.
Qed.

(** X4: in a service built by [__init__], after any sequence of calls, every
    assistant turn of every history comes right after a user turn: a history
    never starts with an assistant turn and never has two assistant turns in a
    row (a user turn may stay without answer, when the call raised). *)
Theorem assistant_turn_follows_user_turn `{Runtime} (api_key : string) (s0 : state)
    (cs : list call) (sid : string) (h : list turn) (i : nat) (answer : string) :
  __init__ api_key = Constructed s0 ->
  sessions (after_calls cs s0) !! sid = Some h ->
  h !! i = Some (Turn assistant answer) ->
  exists (j : nat) (message : string), i = S j ∧ h !! j = Some (Turn user message).
Proof.
  unfold __init__. destruct (bool_decide (api_key = EmptyString)); [discriminate|].
  intros [= <-] Hs Hi.
  assert (dialogue h) as Hd.
  { apply (after_calls_dialogues cs init) in Hs; [exact Hs|].
    intros k h'. unfold init. cbn [sessions]. by rewrite lookup_empty. }
  exact (dialogue_assistant_follows_user h Hd i answer Hi).
Qed.

Lemma assistant_turn_follows_user_turn_witness :
  exists (j : nat) (message : string),
    1%nat = S j
    ∧ [Turn user "Bonjour"; Turn assistant "Entendu (train)."; Turn user "PANNE-REPONSE"] !! j
      = Some (Turn user message).
Proof.
  apply (assistant_turn_follows_user_turn (H:=scripted) "clef" init
           [Generate "Bonjour" "train" (Some "s1"); Generate "PANNE-REPONSE" "train" (Some "s1")]
           "s1" _ 1%nat "Entendu (train).").
  - reflexivity.
  - vm_compute. reflexivity.
  - reflexivity.
Defined.

(** ** Calls to the model *)

(** X5: the prompts one call of [generate_response] sends to the model, in
    order. In score mode with a terminal phrase none is sent. In score mode
    with another message the evaluation prompt is sent first, and the prompt
    of the response is sent after it only when the evaluation call returned.
    In any other mode the prompt of the response is the only one. So a call
    costs at most two requests, and the response is never asked for once the
    evaluation has failed. *)
Theorem prompts_of_a_call `{Runtime} (message mode : string) (given : option string)
    (s : state) :
  coherent s ->
  let sid := session_of given s in
  let context := render_lines (last_n 10 (history sid s ++ [Turn user message])%list) in
  sent (fst (generate_response message mode given s))
  = (sent s ++
     (if is_score mode && is_terminal message then []
      else if is_score mode
           then evaluation_prompt message
                :: (if generate_content (sent s) (evaluation_prompt message) is inr _
                    then [full_prompt mode context message] else [])
           else [full_prompt mode context message]))%list.
Proof.
  intros Hco sid context. subst context sid. rewrite generate_response_run. cbv zeta.
  pose proof (history_opened given message s) as Hh.
  pose proof (sent_opened given message s) as Hsent.
  pose proof (evaluations_opened given message s Hco) as [evs Hevs].
  set (sid := session_of given s) in *.
  set (s1 := opened given message s) in *. clearbody s1.
  assert (forall s2, history sid s2 = (history sid s ++ [Turn user message])%list ->
            sent (fst (reply_step message mode sid s2))
            = (sent s2 ++ [full_prompt mode
                             (render_lines (last_n 10 (history sid s ++ [Turn user message])%list))
                             message])%list) as Hreply.
  { intros s2 Hh2. unfold reply_step, reply_prompt. rewrite Hh2.
    by destruct (generate_content (sent s2) _). }
  destruct (is_score mode); cbn [andb].
  - destruct (is_terminal message).
    + rewrite app_nil_r. unfold report_step.
      by destruct (final_report (records sid s1)).
    + unfold evaluation_step. rewrite Hsent, Hevs.
      destruct (generate_content (sent s) (evaluation_prompt message)); cbn [fst].
      { by rewrite sent_with_sent, Hsent. }
      rewrite Hreply by exact Hh.
      cbn [sent with_record set_evaluations]. by rewrite sent_with_sent, Hsent, <- app_assoc.
  - by rewrite Hreply, Hsent.
Qed.

Lemma prompts_of_a_call_witness :
  sent (fst (generate_response (H:=scripted) "PANNE-ANALYSE" "score" (Some "s1") init))
    = [evaluation_prompt "PANNE-ANALYSE"]
  ∧ sent (fst (generate_response (H:=scripted) "fin" "score" (Some "s1") init)) = [].
Proof.
  split.
  - apply (prompts_of_a_call (H:=scripted) "PANNE-ANALYSE" "score" (Some "s1") init
             coherent_init).
  - apply (prompts_of_a_call (H:=scripted) "fin" "score" (Some "s1") init coherent_init).
Defined.

(** ** Identifiers *)

Lemma draws_opened `{Runtime} (given : option string) (message : string) (s : state) :
  draws (opened given message s) = draws_after given s.
Proof. unfold opened. by destruct (sessions s !! session_of given s). Qed.

Lemma generate_response_draws `{Runtime} (message mode : string) (given : option string)
    (s : state) :
  draws (fst (generate_response message mode given s)) = draws_after given s.
Proof.
  rewrite generate_response_run. cbv zeta.
  pose proof (draws_opened given message s) as Hd.
  set (sid := session_of given s) in *.
  set (s1 := opened given message s) in *. clearbody s1.
  assert (forall s2, draws (fst (reply_step message mode sid s2)) = draws s2) as Hreply.
  { intros s2. unfold reply_step. by destruct (generate_content (sent s2) _). }
  destruct (is_score mode); cbn [andb]; [|by rewrite Hreply].
  destruct (is_terminal message).
  - unfold report_step. by destruct (final_report (records sid s1)).
  - unfold evaluation_step.
    destruct (generate_content (sent s1) (evaluation_prompt message)); cbn [fst]; [done|].
    destruct (evaluations s1 !! sid); cbn [fst]; [|done].
    by rewrite Hreply.
Qed.

(** X6: the identifier [generate_response] returns, given back to it,
    continues the same conversation. After a call that returned [r] (whatever
    identifier it was given, none included), a second call with the
    identifier of [r] draws no new identifier and appends its own exchange
    after the first one in the same history. The identifier of [r] must not
    be the empty string. *)
Theorem returned_identifier_continues `{Runtime} (message mode message' mode' : string)
    (given : option string) (s : state) (r : response) :
  snd (generate_response message mode given s) = Ok r ->
  session_id r ≠ EmptyString ->
  let s1 := fst (generate_response message mode given s) in
  let out := generate_response message' mode' (Some (session_id r)) s1 in
  draws (fst out) = draws s1
  ∧ exists rest,
      history (session_id r) (fst out)
      = (history (session_id r) s
         ++ [Turn user message; Turn assistant (text r); Turn user message'] ++ rest)%list
      ∧ match snd out with
        | Ok r' => session_id r' = session_id r ∧ rest = [Turn assistant (text r')]
        | Raise _ => rest = []
        end.
Proof.
  intros Hr Hne s1 out.
  pose proof (generate_response_history message mode given s) as H1. cbv zeta in H1.
  rewrite Hr in H1. destruct H1 as [Hid H1]. fold s1 in H1. rewrite <- Hid in H1.
  pose proof (generate_response_history message' mode' (Some (session_id r)) s1) as H2.
  cbv zeta in H2. rewrite session_of_given in H2 by done. fold out in H2.
  split.
  - subst out. rewrite generate_response_draws. unfold draws_after.
    by rewrite bool_decide_eq_false_2.
  - destruct (snd out) as [r'|e].
    + destruct H2 as [Hid' H2]. exists [Turn assistant (text r')].
      split; [|done]. rewrite H2, H1, <- !app_assoc. reflexivity.
    + exists []. split; [|done]. rewrite H2, H1, <- !app_assoc. reflexivity.
Qed.

Lemma returned_identifier_continues_witness :
  exists rest,
    history "00000000-0000-4000-8000-000000000100"
      (fst (generate_response (H:=scripted) "encore" "train"
              (Some "00000000-0000-4000-8000-000000000100")
              (fst (generate_response (H:=scripted) "Bonjour" "train" None init))))
    = ([] ++ [Turn user "Bonjour"; Turn assistant "Entendu (train)."; Turn user "encore"]
          ++ rest)%list.
Proof.
  destruct (returned_identifier_continues (H:=scripted) "Bonjour" "train" "encore" "train"
              None init (Response "Entendu (train)." "00000000-0000-4000-8000-000000000100"))
    as (_ & rest & Hh & _).
  - vm_compute. reflexivity.
  - discriminate.
  - exists rest. exact Hh.
Defined.

(** ** Clearing *)

(** X7: [clear_session] is idempotent, and clearing two identifiers gives the
    same service in either order. *)
Theorem clear_session_twice (a b : string) (s : state) :
  fst (clear_session a (fst (clear_session a s))) = fst (clear_session a s)
  ∧ fst (clear_session a (fst (clear_session b s)))
    = fst (clear_session b (fst (clear_session a s))).
Proof.
  rewrite !clear_session_run. cbn [fst sessions evaluations sent draws]. split.
  - by rewrite !delete_delete_eq.
  - by rewrite (delete_delete (sessions s)), (delete_delete (evaluations s)).
Qed.

(** X8: a conversation under a new identifier followed by [clear_session]
    leaves the two stores exactly as they were before the conversation
    started: nothing of the session stays behind, whatever the calls returned
    or raised. *)
Theorem conversation_then_clear `{Runtime} (sid : string) (turns : list (string * string))
    (s : state) :
  sid ≠ EmptyString ->
  sessions s !! sid = None ->
  evaluations s !! sid = None ->
  let s' := fst (clear_session sid
                   (after_calls (map (fun mm => Generate (fst mm) (snd mm) (Some sid)) turns) s)) in
  sessions s' = sessions s ∧ evaluations s' = evaluations s ∧ draws s' = draws s.
Proof.
  intros Hsid Hs He.
  assert (forall s1, same_elsewhere sid s1 s -> draws s1 = draws s ->
            same_elsewhere sid
              (after_calls (map (fun mm => Generate (fst mm) (snd mm) (Some sid)) turns) s1) s
            ∧ draws (after_calls (map (fun mm => Generate (fst mm) (snd mm) (Some sid)) turns) s1)
              = draws s) as Hcalls.
  { induction turns as [|[m mode] turns IH]; intros s1 Hsame Hd; [done|].
    cbn [map after_calls fold_left after_call fst snd]. apply IH.
    - eapply same_elsewhere_trans; [|exact Hsame].
      pose proof (generate_response_elsewhere m mode (Some sid) s1) as Hel.
      by rewrite session_of_given in Hel.
    - rewrite generate_response_draws. unfold draws_after.
      by rewrite bool_decide_eq_false_2. }
  destruct (Hcalls s (same_elsewhere_refl sid s) eq_refl) as [Hsame Hd].
  intros s'. subst s'. rewrite clear_session_run. cbn [fst sessions evaluations draws].
  split; [|split; [|exact Hd]].
  - apply map_eq. intros k. destruct (decide (k = sid)) as [->|Hne].
    + by rewrite lookup_delete_eq, Hs.
    + rewrite lookup_delete_ne by done. by apply Hsame.
  - apply map_eq. intros k. destruct (decide (k = sid)) as [->|Hne].
    + by rewrite lookup_delete_eq, He.
    + rewrite lookup_delete_ne by done. by apply Hsame.
Qed.

Lemma conversation_then_clear_witness :
  sessions (fst (clear_session "s3"
              (after_calls (H:=scripted)
                 [Generate "dix partout" "score" (Some "s3"); Generate "fin" "score" (Some "s3")]
                 two_sessions)))
  = sessions two_sessions.
Proof.
  apply (conversation_then_clear (H:=scripted) "s3" [("dix partout", "score"); ("fin", "score")]
           two_sessions); [discriminate | reflexivity | reflexivity].
Defined.

(** ** The errors of the final score *)

Lemma for_each_raise {A B : Type} (P : exn -> Prop) (body : A -> B -> result A)
    (l : list B) (acc : A) (e : exn) :
  (forall acc x e, x ∈ l -> body acc x = Raise e -> P e) ->
  for_each body acc l = Raise e -> P e.
Proof.
  revert acc. induction l as [|x l IH]; intros acc Hbody; cbn [for_each]; [discriminate|].
  destruct (body acc x) as [acc'|e'] eqn:Hx.
  - rewrite result_bind_ok. apply IH. intros acc0 y e0 Hy. apply Hbody. by right.
  - intros [= <-]. apply (Hbody acc x); [by left | done].
Qed.

Lemma int_to_float_raise (z : Z) (e : exn) :
  int_to_float z = Raise e -> e = Builtin OverflowError.
Proof.
  unfold int_to_float.
  destruct (binary_normalize prec emax z 0 false); first [discriminate | by intros [= <-]].
Qed.

Lemma py_iadd_raise (acc : number) (v : value) (e : exn) :
  py_iadd acc v = Raise e ->
  (e = Builtin TypeError ∧ as_number v = None) ∨ e = Builtin OverflowError.
Proof.
  unfold py_iadd. destruct (as_number v) as [n|]; [|intros [= <-]; by left].
  intros Hr. right. destruct acc as [a|f], n as [b|g]; try discriminate Hr.
  - destruct (int_to_float a) eqn:Ha; [discriminate|].
    cbn in Hr. injection Hr as <-. by apply int_to_float_raise in Ha.
  - destruct (int_to_float b) eqn:Hb; [discriminate|].
    cbn in Hr. injection Hr as <-. by apply int_to_float_raise in Hb.
Qed.

Lemma add_critere_raise (ev : value) (acc : number * Z) (critere : string) (e : exn) :
  add_critere ev acc critere = Raise e ->
  (e = Builtin TypeError ∧ fatal_critere ev critere = true) ∨ e = Builtin OverflowError.
Proof.
  destruct ev as [| | | | s|l|items].
  1-4: cbn; intros [= <-]; by left.
  - unfold add_critere, py_contains, fatal_critere. rewrite result_bind_ok.
    destruct (str_contains critere s); [|discriminate]. cbn. intros [= <-]. by left.
  - unfold add_critere, py_contains, fatal_critere. rewrite result_bind_ok.
    destruct (existsb _ l); [|discriminate]. cbn. intros [= <-]. by left.
  - rewrite add_critere_dict. unfold fatal_critere.
    destruct (dict_get items critere) as [v|]; [|discriminate].
    destruct (py_iadd (fst acc) v) as [t|e'] eqn:Hadd; [discriminate|].
    cbn. intros [= <-]. apply py_iadd_raise in Hadd as [[-> Hnum]| ->]; [left|by right].
    by rewrite Hnum.
Qed.

Lemma add_evaluation_raise (acc : number * Z) (ev : value) (e : exn) :
  add_evaluation acc ev = Raise e ->
  (e = Builtin TypeError ∧ unusable ev = true) ∨ e = Builtin OverflowError.
Proof.
  unfold add_evaluation. intros Hloop.
  eapply (for_each_raise
            (fun e => (e = Builtin TypeError ∧ unusable ev = true) ∨ e = Builtin OverflowError));
    [|exact Hloop].
  intros acc' c e' Hc Hr. apply add_critere_raise in Hr as [[-> Hf]| ->]; [left|by right].
  split; [done|]. unfold unusable. apply existsb_exists. exists c.
  split; [by apply list_elem_of_In | done].
Qed.

Lemma final_score_raise (total : number) (count : Z) (e : exn) :
  count ≠ 0 -> final_score total count = Raise e -> e = Builtin OverflowError.
Proof.
  intros Hcount. unfold final_score, py_truediv.
  replace (count * 20 =? 0) with false by (symmetry; apply Z.eqb_neq; lia).
  assert (forall q, (p ← py_mul_int q 100; py_round p 2) = Raise e ->
                    e = Builtin OverflowError) as Hrest.
  { intros q. unfold py_mul_int.
    destruct (int_to_float 100) as [g|e'] eqn:Hg; [|by vm_compute in Hg].
    rewrite !result_bind_ok. unfold py_round.
    destruct (float_mul q g) as [| | |sg m ex]; try discriminate.
    destruct (323 <? Z.of_nat 2); [discriminate|].
    destruct (if 0 <=? ex then _ else _); try discriminate.
    destruct (float_div _ _); first [discriminate | by intros [= <-]]. }
  destruct total as [a|f].
  - destruct a as [|a|a].
    + rewrite result_bind_ok. apply Hrest.
    + destruct (float_div _ _); rewrite ?result_bind_ok; try apply Hrest. by intros [= <-].
    + destruct (float_div _ _); rewrite ?result_bind_ok; try apply Hrest. by intros [= <-].
  - destruct (int_to_float (count * 20)) as [g|e'] eqn:Hg.
    + rewrite !result_bind_ok. apply Hrest.
    + cbn. intros [= <-]. by apply int_to_float_raise in Hg.
Qed.

Lemma final_report_raise `{Runtime} (evs : list value) (e : exn) :
  final_report evs = Raise e ->
  (e = Builtin TypeError ∧ exists ev, ev ∈ evs ∧ unusable ev = true)
  ∨ e = Builtin OverflowError.
Proof.
  unfold final_report. destruct evs as [|ev evs]; [discriminate|].
  destruct (for_each add_evaluation (NInt 0, 0) (ev :: evs)) as [acc|e'] eqn:Hloop.
  - rewrite result_bind_ok. destruct (snd acc =? 0) eqn:Hc; [discriminate|].
    apply Z.eqb_neq in Hc.
    destruct (final_score (fst acc) (snd acc)) as [sc|e'] eqn:Hsc; [discriminate|].
    cbn. intros [= <-]. right. exact (final_score_raise _ _ _ Hc Hsc).
  - cbn. intros [= <-].
    eapply (for_each_raise
              (fun e => (e = Builtin TypeError ∧ exists x, x ∈ ev :: evs ∧ unusable x = true)
                        ∨ e = Builtin OverflowError));
      [|exact Hloop].
    intros acc x e0 Hx Hr. apply add_evaluation_raise in Hr as [[-> Hu]| ->]; [left|by right].
    split; [done|]. by exists x.
Qed.

(** X9: [_generate_final_score] can only raise [TypeError] or [OverflowError].
    The guards of its loop work: the test [critere in ev] keeps the lookup
    [ev[critere]] from raising [KeyError] on a dict, and the test
    [count == 0] keeps the division from raising [ZeroDivisionError]. A
    [TypeError] means that a record of the session is unusable: a criterion
    is found in it with something else than a number. *)
Theorem final_score_only_type_or_overflow `{Runtime} (sid : string) (s : state) (e : exn) :
  snd (_generate_final_score sid s) = Raise e ->
  (e = Builtin TypeError ∧ exists ev, ev ∈ records sid s ∧ unusable ev = true)
  ∨ e = Builtin OverflowError.
Proof.
  rewrite _generate_final_score_run. cbn [snd]. apply final_report_raise.
Qed.

Lemma final_score_only_type_or_overflow_witness :
  (Builtin TypeError = Builtin TypeError
   ∧ exists ev, ev ∈ records "s1" after_words ∧ unusable ev = true)
  ∨ Builtin TypeError = Builtin OverflowError.
Proof.
  apply (final_score_only_type_or_overflow (H:=scripted) "s1" after_words).
  vm_compute. reflexivity.
Defined.

(** ** The errors of [generate_response] *)

Lemma is_score_true (mode : string) : is_score mode = true <-> mode = "score".
Proof. unfold is_score. apply bool_decide_eq_true. Qed.

Lemma is_terminal_iff `{Runtime} (message : string) :
  is_terminal message = true <-> str_lower message ∈ terminal_phrases.
Proof. unfold is_terminal. apply bool_decide_eq_true. Qed.

(** X10: on a store where turn lists and evaluation lists co-exist, the
    errors [generate_response] lets out are of three kinds and no other: the
    error of the model itself, when the evaluation call of score mode fails;
    the wrapped exception "Erreur génération IA : ...", outside the report
    path; a [TypeError] or an [OverflowError] of the score computation, on the
    report path. In particular the lookups [self.sessions[session_id]] and
    [self.evaluations[session_id]] never raise [KeyError]. *)
Theorem errors_of_generate_response `{Runtime} (message mode : string)
    (given : option string) (s : state) (e : exn) :
  coherent s ->
  snd (generate_response message mode given s) = Raise e ->
  (mode = "score" ∧ (str_lower message ∉ terminal_phrases)
   ∧ exists msg, generate_content (sent s) (evaluation_prompt message) = inl msg
                 ∧ e = ExternalError msg)
  ∨ (¬ (mode = "score" ∧ str_lower message ∈ terminal_phrases)
     ∧ exists msg, e = PyException ("Erreur génération IA : " +:+ msg))
  ∨ (mode = "score" ∧ str_lower message ∈ terminal_phrases
     ∧ (e = Builtin TypeError ∨ e = Builtin OverflowError)).
Proof.
  intros Hco. rewrite generate_response_run. cbv zeta.
  pose proof (sent_opened given message s) as Hsent.
  pose proof (evaluations_opened given message s Hco) as [evs Hevs].
  set (sid := session_of given s) in *.
  set (s1 := opened given message s) in *. clearbody s1.
  assert (forall s2, snd (reply_step message mode sid s2) = Raise e ->
            exists msg, e = PyException ("Erreur génération IA : " +:+ msg)) as Hreply.
  { intros s2. unfold reply_step.
    destruct (generate_content (sent s2) _) as [msg|t]; cbn [snd]; [|discriminate].
    intros [= <-]. by exists msg. }
  destruct (is_score mode) eqn:Hmode; cbn [andb].
  - apply is_score_true in Hmode.
    destruct (is_terminal message) eqn:Hterm.
    + apply is_terminal_iff in Hterm. unfold report_step.
      destruct (final_report (records sid s1)) as [final|e'] eqn:Hrep; cbn [snd];
        [discriminate|].
      intros [= <-]. right. right. split; [done|]. split; [done|].
      apply final_report_raise in Hrep as [[-> _]| ->]; [by left | by right].
    + assert (str_lower message ∉ terminal_phrases) as Hnt.
      { intros Hin. apply is_terminal_iff in Hin. congruence. }
      unfold evaluation_step. rewrite Hsent, Hevs.
      destruct (generate_content (sent s) (evaluation_prompt message)) as [msg|t] eqn:Hg;
        cbn [fst snd].
      * intros [= <-]. left. split; [done|]. split; [done|]. by exists msg.
      * intros Hr. right. left. split; [tauto|]. by apply Hreply in Hr.
  - intros Hr. right. left. split; [|by apply Hreply in Hr].
    intros [Hm _]. apply is_score_true in Hm. congruence.
Qed.

Lemma errors_of_generate_response_witness :
  ("train" = "score" ∧ (lower_ascii "PANNE-REPONSE" ∉ terminal_phrases)
   ∧ exists msg, scripted_model [] (evaluation_prompt "PANNE-REPONSE") = inl msg
                 ∧ PyException "Erreur génération IA : quota" = ExternalError msg)
  ∨ (¬ ("train" = "score" ∧ lower_ascii "PANNE-REPONSE" ∈ terminal_phrases)
     ∧ exists msg, PyException "Erreur génération IA : quota"
                   = PyException ("Erreur génération IA : " +:+ msg))
  ∨ ("train" = "score" ∧ lower_ascii "PANNE-REPONSE" ∈ terminal_phrases
     ∧ (PyException "Erreur génération IA : quota" = Builtin TypeError
        ∨ PyException "Erreur génération IA : quota" = Builtin OverflowError)).
Proof.
  apply (errors_of_generate_response (H:=scripted) "PANNE-REPONSE" "train" (Some "s1") init
           (PyException "Erreur génération IA : quota") coherent_init).
  vm_compute. reflexivity.
Defined.

(** ** Evaluation records stay *)

Lemma records_with_turn (sid k : string) (t : turn) (s : state) :
  records k (with_turn sid t s) = records k s.
Proof. reflexivity. Qed.

Lemma records_with_record_ne (sid k : string) (ev : value) (s : state) :
  k ≠ sid -> records k (with_record sid ev s) = records k s.
Proof.
  intros Hne. unfold records, with_record. cbn [evaluations set_evaluations].
  by rewrite lookup_insert_ne.
Qed.

Lemma records_reply_step `{Runtime} (message mode sid k : string) (s : state) :
  records k (fst (reply_step message mode sid s)) = records k s.
Proof. unfold reply_step. by destruct (generate_content (sent s) _). Qed.

Lemma generate_response_records `{Runtime} (message mode : string) (given : option string)
    (s : state) (k : string) :
  coherent s ->
  records k (fst (generate_response message mode given s))
  = (records k s ++
     (if bool_decide (k = session_of given s) && is_score mode && negb (is_terminal message)
      then match generate_content (sent s) (evaluation_prompt message) with
           | inr response_text => [parsed_record response_text]
           | inl _ => []
           end
      else []))%list.
Proof.
  intros Hco. rewrite generate_response_run. cbv zeta.
  pose proof (records_opened_any given message k s Hco) as Hrec.
  pose proof (sent_opened given message s) as Hsent.
  pose proof (evaluations_opened given message s Hco) as [evs Hevs].
  set (sid := session_of given s) in *.
  set (s1 := opened given message s) in *. clearbody s1.
  destruct (is_score mode); cbn [andb].
  - destruct (is_terminal message); cbn [negb].
    + rewrite andb_false_r, app_nil_r, report_step_records. exact Hrec.
    + rewrite andb_true_r. unfold evaluation_step. rewrite Hsent, Hevs.
      destruct (generate_content (sent s) (evaluation_prompt message)) as [msg|t];
        cbn [fst].
      * destruct (bool_decide (k = sid)); rewrite app_nil_r; exact Hrec.
      * rewrite records_reply_step.
        destruct (decide (k = sid)) as [->|Hne].
        -- rewrite bool_decide_eq_true_2 by done. rewrite records_with_record.
           f_equal. exact Hrec.
        -- rewrite bool_decide_eq_false_2 by done.
           rewrite records_with_record_ne, app_nil_r by done. exact Hrec.
  - rewrite andb_false_r, app_nil_r, records_reply_step. exact Hrec.
Qed.

(** X11: evaluation records are only ever appended. After a call of
    [generate_response] the records of every identifier are those it had
    before, in the same order; one record is added at the end, for the
    session of the call alone, exactly when the mode is "score", the message
    is not a terminal phrase and the evaluation call returned. *)
Theorem records_are_append_only `{Runtime} (message mode : string) (given : option string)
    (s : state) (k : string) :
  coherent s ->
  records k (fst (generate_response message mode given s))
  = (records k s ++
     (if bool_decide (k = session_of given s) && is_score mode && negb (is_terminal message)
      then match generate_content (sent s) (evaluation_prompt message) with
           | inr response_text => [parsed_record response_text]
           | inl _ => []
           end
      else []))%list.
Proof. apply generate_response_records. Qed.

Lemma records_are_append_only_witness :
  records "s1" (fst (generate_response (H:=scripted) "PANNE-ANALYSE" "score" (Some "s1") two_tens))
    = [tens_record; tens_record]
  ∧ records "s1" (fst (generate_response (H:=scripted) "un avis" "score" (Some "s1") two_tens))
    = [tens_record; tens_record; raw_record "Voici mon analyse."].
Proof.
  assert (coherent two_tens) as Hco.
  { intros k. unfold two_tens. cbn [sessions evaluations].
    destruct (decide ("s1" = k)) as [<-|Hne].
    - rewrite !lookup_singleton_eq. split; discriminate.
    - by rewrite !lookup_singleton_ne. }
  split.
  - apply (records_are_append_only (H:=scripted) "PANNE-ANALYSE" "score" (Some "s1")
             two_tens "s1" Hco).
  - apply (records_are_append_only (H:=scripted) "un avis" "score" (Some "s1")
             two_tens "s1" Hco).
Defined.

(** ** Unusable records *)

Lemma for_each_hits {A B : Type} (body : A -> B -> result A) (l : list B) (x : B) :
  x ∈ l ->
  (forall acc, exists e, body acc x = Raise e) ->
  forall acc, exists e, for_each body acc l = Raise e.
Proof.
  intros Hx Hbody. induction l as [|y l IH]; intros acc; [by apply elem_of_nil in Hx|].
  cbn [for_each]. destruct (body acc y) as [acc'|e] eqn:Hy; [|by exists e].
  rewrite result_bind_ok. apply elem_of_cons in Hx as [->|Hx].
  - destruct (Hbody acc) as [e He]. congruence.
  - by apply IH.
Qed.

Lemma add_critere_fatal (ev : value) (critere : string) (acc : number * Z) :
  fatal_critere ev critere = true -> add_critere ev acc critere = Raise (Builtin TypeError).
Proof.
  destruct ev as [| | | | s|l|items]; try reflexivity.
  - unfold add_critere, py_contains, fatal_critere. by intros ->.
  - unfold add_critere, py_contains, fatal_critere. by intros ->.
  - rewrite add_critere_dict. unfold fatal_critere.
    destruct (dict_get items critere) as [v|]; [|discriminate].
    unfold py_iadd. by destruct (as_number v).
Qed.

Lemma add_evaluation_unusable (ev : value) :
  unusable ev = true -> forall acc, exists e, add_evaluation acc ev = Raise e.
Proof.
  intros Hu. apply existsb_exists in Hu as (c & Hc & Hf).
  apply (for_each_hits (add_critere ev) criteres c).
  - by apply list_elem_of_In.
  - intros acc. exists (Builtin TypeError). by apply add_critere_fatal.
Qed.

Lemma final_report_unusable `{Runtime} (evs : list value) (ev : value) :
  ev ∈ evs -> unusable ev = true ->
  exists e, final_report evs = Raise e ∧ (e = Builtin TypeError ∨ e = Builtin OverflowError).
Proof.
  intros Hev Hu.
  destruct (for_each_hits add_evaluation evs ev Hev (add_evaluation_unusable ev Hu) (NInt 0, 0))
    as [e He].
  assert (final_report evs = Raise e) as Hr.
  { unfold final_report. destruct evs; [by apply elem_of_nil in Hev|]. by rewrite He. }
  exists e. split; [done|].
  apply final_report_raise in Hr as [[-> _]| ->]; [by left | by right].
Qed.

Lemma after_call_coherent `{Runtime} (c : call) (s : state) :
  coherent s -> coherent (after_call s c).
Proof.
  intros Hco. destruct c; cbn [after_call].
  - by apply generate_response_coherent.
  - by apply clear_session_coherent.
Qed.

Lemma after_calls_keep_record `{Runtime} (sid : string) (ev : value) (cs : list call)
    (s : state) :
  coherent s -> forallb (keeps sid) cs = true -> ev ∈ records sid s ->
  coherent (after_calls cs s) ∧ ev ∈ records sid (after_calls cs s).
Proof.
  revert s. induction cs as [|c cs IH]; intros s Hco Hk Hev; [done|].
  cbn [forallb] in Hk. apply andb_true_iff in Hk as [Hc Hk].
  cbn [after_calls fold_left]. apply IH; [by apply after_call_coherent | done |].
  destruct c as [m mode given|k]; cbn [after_call keeps] in *.
  - rewrite generate_response_records by done. apply elem_of_app. by left.
  - rewrite clear_session_run. unfold records. cbn [fst evaluations].
    apply negb_true_iff, String.eqb_neq in Hc.
    by rewrite lookup_delete_ne.
Qed.

(** X12: a session that holds an unusable record (a record in which a
    criterion is found with something that is not a number, as when the
    model answers [{"logique": "15/20"}] or the bare number [7]) gets no
    report any more. Whatever calls follow, as long as the session itself is
    not cleared, the record stays, and every terminal phrase sent to the
    session in score mode raises [TypeError] or [OverflowError], leaving the
    user turn without answer. *)
Theorem unusable_record_blocks_reports `{Runtime} (sid message : string) (ev : value)
    (cs : list call) (s : state) :
  coherent s ->
  ev ∈ records sid s ->
  unusable ev = true ->
  forallb (keeps sid) cs = true ->
  sid ≠ EmptyString ->
  str_lower message ∈ terminal_phrases ->
  let s' := after_calls cs s in
  let out := generate_response message "score" (Some sid) s' in
  ev ∈ records sid s'
  ∧ (exists e, snd out = Raise e ∧ (e = Builtin TypeError ∨ e = Builtin OverflowError))
  ∧ history sid (fst out) = (history sid s' ++ [Turn user message])%list
  ∧ ev ∈ records sid (fst out).
Proof.
  intros Hco Hev Hu Hk Hsid Hterm s' out.
  destruct (after_calls_keep_record sid ev cs s Hco Hk Hev) as [Hco' Hev']. fold s' in Hco', Hev'.
  split; [exact Hev'|].
  assert (exists e, snd out = Raise e ∧ (e = Builtin TypeError ∨ e = Builtin OverflowError))
    as (e & He & Hkind).
  { subst out. rewrite generate_response_run. cbv zeta.
    rewrite is_score_score, is_terminal_true by done. cbn [andb].
    rewrite report_step_result, session_of_given by done.
    pose proof (records_opened (Some sid) message s' Hco') as Hrec.
    rewrite session_of_given in Hrec by done. rewrite Hrec.
    destruct (final_report_unusable (records sid s') ev Hev' Hu) as (e & -> & Hkind).
    by exists e. }
  split; [by exists e|]. split.
  - pose proof (generate_response_history message "score" (Some sid) s') as Hh.
    cbv zeta in Hh. fold out in Hh. rewrite He, session_of_given in Hh by done. exact Hh.
  - subst out. rewrite generate_response_records by done. apply elem_of_app. by left.
Qed.

Lemma unusable_record_blocks_reports_witness :
  exists e,
    snd (generate_response (H:=scripted) "fin" "score" (Some "s1")
           (after_calls (H:=scripted)
              [Generate "dix partout" "score" (Some "s1"); Clear "s2";
               Generate "Bonjour" "train" (Some "s1")] after_words))
    = Raise e ∧ (e = Builtin TypeError ∨ e = Builtin OverflowError).
Proof.
  assert (coherent after_words) as Hco.
  { apply (generate_response_coherent (H:=scripted)), coherent_init. }
  assert (words_record ∈ records "s1" after_words) as Hev.
  { vm_compute. by left. }
  assert (lower_ascii "fin" ∈ terminal_phrases) as Hterm.
  { vm_compute. apply elem_of_cons. right. apply elem_of_cons. by left. }
  assert ("s1" ≠ EmptyString) as Hsid by discriminate.
  destruct (unusable_record_blocks_reports (H:=scripted) "s1" "fin" words_record
              [Generate "dix partout" "score" (Some "s1"); Clear "s2";
               Generate "Bonjour" "train" (Some "s1")] after_words
              Hco Hev eq_refl eq_refl Hsid Hterm) as (_ & Hraise & _).
  exact Hraise.
Defined.

(** ** What the score depends on *)

Lemma py_sum_int_of (vs : list value) (a : Z) :
  forallb (fun v => bool_decide (is_Some (int_of v))) vs = true ->
  for_each py_iadd (NInt a) vs
  = Ok (NInt (a + foldr (fun v acc => default 0 (int_of v) + acc) 0 vs)).
Proof.
  revert a. induction vs as [|v vs IH]; intros a Hvs.
  - cbn. by rewrite Z.add_0_r.
  - cbn [forallb] in Hvs. apply andb_true_iff in Hvs as [Hv Hvs].
    apply bool_decide_eq_true in Hv as [z Hz].
    cbn [for_each foldr]. replace (default 0 (int_of v)) with z by (by rewrite Hz).
    assert (py_iadd (NInt a) v = Ok (NInt (a + z))) as ->.
    { destruct v; try discriminate Hz; cbn in Hz; injection Hz as <-; reflexivity. }
    rewrite result_bind_ok, IH by done. f_equal. f_equal. lia.
Qed.

Lemma int_valued_contributions (evs : list value) :
  forallb int_valued evs = true ->
  forallb is_dict evs = true
  ∧ forallb (fun v => bool_decide (is_Some (int_of v))) (contributions evs) = true.
Proof.
  induction evs as [|ev evs IH]; intros Hiv; [done|].
  cbn [forallb] in Hiv. apply andb_true_iff in Hiv as [Hev Hevs].
  destruct (IH Hevs) as [Hd Hs].
  destruct ev as [| | | | | |items]; try discriminate Hev.
  split; [exact Hd|].
  unfold contributions. cbn [map concat]. fold (contributions evs).
  rewrite forallb_app. apply andb_true_iff. split; [exact Hev | exact Hs].
Qed.

Lemma final_report_int_valued `{Runtime} (evs : list value) :
  forallb int_valued evs = true ->
  final_report evs
  = match evs with
    | [] => Ok no_argument
    | _ =>
      if Z.of_nat (length (contributions evs)) =? 0 then Ok no_score
      else score ← final_score (NInt (int_total evs)) (Z.of_nat (length (contributions evs)));
           Ok (report (float_str score))
    end.
Proof.
  intros Hiv. destruct (int_valued_contributions evs Hiv) as [Hd Hs].
  unfold final_report. destruct evs as [|ev evs]; [done|].
  rewrite add_evaluations_dicts, py_sum_int_of by done.
  rewrite result_bind_ok. cbn [fst snd]. rewrite !Z.add_0_l. reflexivity.
Qed.

Lemma contributions_Permutation (evs1 evs2 : list value) :
  evs1 ≡ₚ evs2 -> contributions evs1 ≡ₚ contributions evs2.
Proof.
  unfold contributions. induction 1 as [|x l1 l2 _ IH|x y l|l1 l2 l3 _ IH1 _ IH2]; cbn [map concat].
  - done.
  - by rewrite IH.
  - rewrite !app_assoc. f_equiv. apply Permutation_app_comm.
  - by rewrite IH1.
Qed.

Lemma int_sum_Permutation (l1 l2 : list value) :
  l1 ≡ₚ l2 ->
  foldr (fun v acc => default 0 (int_of v) + acc) 0 l1
  = foldr (fun v acc => default 0 (int_of v) + acc) 0 l2.
Proof.
  induction 1 as [|x l1 l2 _ IH|x y l|l1 l2 l3 _ IH1 _ IH2]; cbn [foldr]; lia.
Qed.

(** X13: when the criteria of the records are integers, the report does not
    depend on the order in which the evaluations were recorded: two sessions
    whose records are the same up to order get the same result from
    [_generate_final_score]. *)
Theorem score_ignores_record_order `{Runtime} (sid sid' : string) (s s' : state) :
  forallb int_valued (records sid s) = true ->
  records sid s ≡ₚ records sid' s' ->
  snd (_generate_final_score sid s) = snd (_generate_final_score sid' s').
Proof.
  intros Hiv Hperm. rewrite !_generate_final_score_run. cbn [snd].
  assert (forallb int_valued (records sid' s') = true) as Hiv'.
  { apply forallb_forall. intros ev Hev. rewrite forallb_forall in Hiv. apply Hiv.
    by rewrite <- !list_elem_of_In, Hperm in *. }
  rewrite !final_report_int_valued by done.
  pose proof (contributions_Permutation _ _ Hperm) as Hc.
  unfold int_total. rewrite (int_sum_Permutation _ _ Hc), (Permutation_length Hc).
  destruct (records sid s) as [|ev evs] eqn:H1, (records sid' s') as [|ev' evs'] eqn:H2; try done.
  - by apply Permutation_nil_cons in Hperm.
  - symmetry in Hperm. by apply Permutation_nil_cons in Hperm.
Qed.

Lemma score_ignores_record_order_witness :
  snd (_generate_final_score (H:=scripted) "s1"
         (State ∅ {[ "s1" := [tens_record; VDict [("logique", VInt 20)]; raw_record "x"] ]} [] 0))
  = snd (_generate_final_score (H:=scripted) "s2"
           (State ∅ {[ "s2" := [raw_record "x"; tens_record; VDict [("logique", VInt 20)]] ]} [] 0)).
Proof.
  apply (score_ignores_record_order (H:=scripted)).
  - reflexivity.
  - symmetry.
    apply Permutation_cons_app
      with (l1 := [tens_record; VDict [("logique", VInt 20)]]) (l2 := []).
    reflexivity.
Defined.

Lemma dict_get_filter (items : list (string * value)) (critere : string) :
  critere ∈ criteres ->
  dict_get (filter (fun kv => fst kv ∈ criteres) items) critere = dict_get items critere.
Proof.
  intros Hc. induction items as [|[k v] items IH]; [done|].
  destruct (decide (k ∈ criteres)) as [Hk|Hk].
  - rewrite filter_cons_True by done. cbn [dict_get]. by rewrite IH.
  - rewrite filter_cons_False by done. cbn [dict_get].
    destruct (String.eqb_spec k critere) as [->|_]; [done | exact IH].
Qed.

Lemma omap_ext_in {A B : Type} (f g : A -> option B) (l : list A) :
  (forall x, x ∈ l -> f x = g x) -> omap f l = omap g l.
Proof.
  induction l as [|x l IH]; intros Hfg; [done|]. cbn [omap list_omap].
  rewrite (Hfg x) by (by left). fold (omap f l) (omap g l).
  rewrite IH; [done|]. intros y Hy. apply Hfg. by right.
Qed.

Lemma add_evaluation_only_criteres (ev : value) (acc : number * Z) :
  add_evaluation acc (only_criteres ev) = add_evaluation acc ev.
Proof.
  destruct ev as [| | | | | |items]; try reflexivity. destruct acc as [total count].
  cbn [only_criteres]. rewrite !add_evaluation_dict. cbn [present_values].
  by rewrite (omap_ext_in _ (dict_get items)) by (intros c Hc; by apply dict_get_filter).
Qed.

Lemma for_each_only_criteres (evs : list value) (acc : number * Z) :
  for_each add_evaluation acc (only_criteres <$> evs) = for_each add_evaluation acc evs.
Proof.
  revert acc. induction evs as [|ev evs IH]; intros acc; [done|].
  cbn [fmap list_fmap for_each]. rewrite add_evaluation_only_criteres.
  destruct (add_evaluation acc ev); [|done]. rewrite !result_bind_ok. apply IH.
Qed.

(** X14: only what a record holds under the five criteria keys counts.
    Dropping every other item of the records ([idee_principale], or anything
    else the model added) changes nothing to what [_generate_final_score]
    returns or raises. *)
Theorem score_reads_only_criteres `{Runtime} (sid sid' : string) (s s' : state) :
  records sid' s' = only_criteres <$> records sid s ->
  snd (_generate_final_score sid' s') = snd (_generate_final_score sid s).
Proof.
  intros Hrec. rewrite !_generate_final_score_run. cbn [snd]. rewrite Hrec.
  destruct (records sid s) as [|ev evs]; [done|].
  pose proof (for_each_only_criteres (ev :: evs) (NInt 0, 0)) as Hloop.
  unfold final_report. cbn [fmap list_fmap] in *. by rewrite Hloop.
Qed.

Lemma score_reads_only_criteres_witness :
  snd (_generate_final_score (H:=scripted) "s1"
         (State ∅ {[ "s1" := [VDict [("logique", VInt 10); ("preuves", VInt 10);
                                     ("force_argumentative", VInt 10); ("structure", VInt 10);
                                     ("clarte_style", VInt 10)];
                              VDict []] ]} [] 0))
  = snd (_generate_final_score (H:=scripted) "s1" mixed).
Proof.
  apply (score_reads_only_criteres (H:=scripted) "s1" "s1" mixed). vm_compute. reflexivity.
Defined.

(** ** What the model is shown *)

(** X15: the model is shown the current message and at most the nine turns
    before it. With a mode other than "score", two services whose histories
    for the identifier end with the same nine turns (and that had the same
    exchanges with the model) send the same prompt and return the same
    thing: older turns have no effect. *)
Theorem older_turns_are_not_shown `{Runtime} (message mode sid : string) (s s' : state) :
  sid ≠ EmptyString ->
  mode ≠ "score" ->
  sent s = sent s' ->
  last_n 9 (history sid s) = last_n 9 (history sid s') ->
  snd (generate_response message mode (Some sid) s)
  = snd (generate_response message mode (Some sid) s')
  ∧ sent (fst (generate_response message mode (Some sid) s))
    = sent (fst (generate_response message mode (Some sid) s')).
Proof.
  intros Hsid Hmode Hsent Hlast. rewrite !generate_response_run. cbv zeta.
  rewrite is_score_other by done. cbn [andb].
  unfold reply_step, reply_prompt.
  pose proof (history_opened (Some sid) message s) as Hh.
  pose proof (history_opened (Some sid) message s') as Hh'.
  rewrite !session_of_given in * by done.
  rewrite Hh, Hh', !sent_opened, !(last_n_snoc 9), Hlast, Hsent.
  destruct (generate_content (sent s') _); cbn [fst snd sent with_turn set_sessions];
    by rewrite !sent_with_sent, !sent_opened, Hsent.
Qed.

Lemma older_turns_are_not_shown_witness :
  snd (generate_response (H:=scripted) "Bonjour" "train" (Some "s1")
         (State {[ "s1" := Turn user "PANNE-REPONSE" :: replicate 9 (Turn user "a") ]}
                {[ "s1" := [] ]} [] 0))
  = snd (generate_response (H:=scripted) "Bonjour" "train" (Some "s1")
           (State {[ "s1" := replicate 9 (Turn user "a") ]} {[ "s1" := [] ]} [] 0)).
Proof.
  apply (older_turns_are_not_shown (H:=scripted) "Bonjour" "train" "s1");
    [discriminate | discriminate | reflexivity | reflexivity].
Defined.

Lemma final_score_finite (total count : Z) :
  0 < count -> 0 <= total <= 20 * count ->
  exists score, final_score (NInt total) count = Ok score
                ∧ (score = S754_zero false ∨ exists m e, score = S754_finite false m e).
Proof.
  intros Hcount Htotal. unfold final_score.
  assert (exists q, py_truediv (NInt total) (count * 20) = Ok q
                    ∧ (q = S754_zero false
                       ∨ exists m e, q = S754_finite false m e
                                     ∧ Zpos (digits2_pos m) + e <= 2 ∧ e <= 971))
    as (q & -> & Hq).
  { unfold py_truediv. replace (count * 20 =? 0) with false by (symmetry; apply Z.eqb_neq; lia).
    destruct total as [|a|a]; [|clear Hcount|lia].
    - replace (count * 20 <? 0) with false by (symmetry; apply Z.ltb_ge; lia).
      eexists. split; [reflexivity|]. by left.
    - destruct (count * 20) as [|b|b] eqn:Hb; [lia| |lia].
      change (Z.to_pos (Z.abs (Z.pos a))) with a.
      change (Z.to_pos (Z.abs (Z.pos b))) with b.
      change (Z.pos a <? 0) with false. change (Z.pos b <? 0) with false.
      assert (Zpos (digits2_pos a) <= Zpos (digits2_pos b)) as Hd.
      { apply (Zdigits2_mono (Zpos a) (Zpos b)). lia. }
      destruct (float_div_ints_bound false false a b 1 ltac:(lia) ltac:(lia))
        as [Hz|(m & e & Hf & Hm & He)].
      + rewrite Hz. eexists. split; [reflexivity|]. by left.
      + rewrite Hf. eexists. split; [reflexivity|]. right. by exists m, e. }
  rewrite result_bind_ok. unfold py_mul_int. rewrite int_to_float_100, result_bind_ok.
  rewrite result_bind_ok.
  assert (float_mul q hundred = S754_zero false
          ∨ exists m e, float_mul q hundred = S754_finite false m e
                        ∧ Zpos (digits2_pos m) + e <= 10 ∧ e <= 971) as Hp.
  { destruct Hq as [->|(m & e & -> & Hm & He)]; [by left|].
    unfold float_mul, hundred, SFmul. cbn [xorb].
    apply (binary_round_aux_bound false _ _ _ 9); try lia.
    pose proof (Zdigits2_mul (Zpos m) 7036874417766400 ltac:(lia) ltac:(lia)) as Hmul.
    change (Zdigits2 7036874417766400) with 53 in Hmul.
    change (Zdigits2 (Z.pos m)) with (Z.pos (digits2_pos m)) in Hmul.
    rewrite Pos2Z.inj_mul. lia. }
  destruct Hp as [->|(m & e & -> & Hm & He)]; [eexists; split; [reflexivity|by left]|].
  unfold py_round. change (323 <? Z.of_nat 2) with false. cbv iota.
  change (10 ^ Z.of_nat 2) with 100. change (Z.to_pos 100) with 100%positive.
  set (n := if 0 <=? e then Z.pos m * 2 ^ e * 100
            else round_half_even (Z.pos m * 100) (2 ^ (- e))).
  assert (0 <= n ∧ Zdigits2 n <= 18) as [Hn0 Hn].
  { subst n. destruct (0 <=? e) eqn:Hsign.
    - apply Z.leb_le in Hsign.
      assert (0 < 2 ^ e) by (apply Z.pow_pos_nonneg; lia).
      split; [nia|].
      pose proof (Zdigits2_mul (Z.pos m * 2 ^ e) 100 ltac:(nia) ltac:(lia)) as Hmul.
      rewrite Zdigits2_pow2 in Hmul by lia.
      change (Zdigits2 100) with 7 in Hmul. cbn [Zdigits2] in Hmul. lia.
    - apply Z.leb_gt in Hsign.
      assert (0 < 2 ^ (- e)) as Hp by (apply Z.pow_pos_nonneg; lia).
      pose proof (round_half_even_bound (Z.pos m * 100) (2 ^ (- e)) ltac:(lia) Hp) as Hr.
      pose proof (Z.div_pos (Z.pos m * 100) (2 ^ (- e)) ltac:(lia) Hp) as Hq0.
      pose proof (Zdigits2_div (Z.pos m * 100) (2 ^ (- e)) ltac:(lia) Hp) as Hdiv.
      pose proof (Zdigits2_succ _ Hq0) as Hsucc.
      set (quo := Z.pos m * 100 / 2 ^ (- e)) in *.
      set (r := round_half_even (Z.pos m * 100) (2 ^ (- e))) in *.
      assert (Zdigits2 r <= Zdigits2 (quo + 1)) as Hmono.
      { apply Zdigits2_mono. clearbody quo r. lia. }
      assert (Zdigits2 (2 ^ (- e)) = - e + 1) as Hpow.
      { rewrite Zdigits2_pos by lia. rewrite Z.log2_pow2 by lia. lia. }
      pose proof (Zdigits2_mul (Z.pos m) 100 ltac:(lia) ltac:(lia)) as Hmul.
      change (Zdigits2 100) with 7 in Hmul.
      change (Zdigits2 (Z.pos m)) with (Z.pos (digits2_pos m)) in Hmul.
      rewrite Hpow in Hdiv. clearbody quo r. split; lia. }
  destruct n as [|pn|pn]; [eexists; split; [reflexivity|by left]| |lia].
  cbn [Zdigits2] in Hn.
  destruct (float_div_ints_bound false false pn 100 12 ltac:(cbn; lia) ltac:(lia))
    as [Hz|(m' & e' & Hf & _)].
  - rewrite Hz. eexists; split; [reflexivity|by left].
  - rewrite Hf. eexists; split; [reflexivity|]. right. by exists m', e'.
Qed.

(** X16: with well-formed records of which at least one holds a criterion, the
    report is computed and the score written in it is a finite binary64 number
    that is not negative: never NaN, never an infinity, never below zero. *)
Theorem score_is_finite `{Runtime} (sid : string) (s : state) :
  forallb well_formed (records sid s) = true ->
  contributions (records sid s) <> [] ->
  exists score,
    snd (_generate_final_score sid s) = Ok (report (float_str score))
    ∧ (score = S754_zero false ∨ exists m e, score = S754_finite false m e).
Proof.
  intros Hwf Hne. rewrite _generate_final_score_run. cbn [snd].
  destruct (well_formed_contributions _ Hwf) as [Hd Hs].
  unfold final_report. destruct (records sid s) as [|ev evs]; [done|].
  rewrite add_evaluations_dicts by done.
  destruct (py_sum_scored _ 0 Hs) as (t & -> & Hrange).
  rewrite !result_bind_ok. cbn [fst snd].
  set (count := Z.of_nat (length (contributions (ev :: evs)))) in *.
  assert (0 < count) as Hcount.
  { subst count. destruct (contributions (ev :: evs)); [done|]. cbn [length]. lia. }
  replace (0 + count =? 0) with false by (symmetry; apply Z.eqb_neq; lia).
  destruct (final_score_finite (0 + t) (0 + count) ltac:(lia) ltac:(lia))
    as (score & -> & Hscore).
  rewrite result_bind_ok. by exists score.
Qed.

Lemma score_is_finite_witness :
  exists score,
    snd (_generate_final_score (H:=scripted) "s1" two_tens)
    = Ok (report (float_str (Runtime:=scripted) score))
    ∧ (score = S754_zero false ∨ exists m e, score = S754_finite false m e).
Proof.
  apply (score_is_finite (H:=scripted) "s1" two_tens); [reflexivity|discriminate].
Defined.
